(** * Stepik-Studio: the recording and export pipeline

    A shallow embedding of
    - [stepicstudio/postprocessing/exporting/__init__.py]
      (the Premiere Pro command builder, the export entry point and the
      walk over the sub-steps of a step), and
    - [stepicstudio/video_recorders/camera_recorder.py]
      (the server camera recorder),
    together with the properties of them that the design document states. *)

From Stdlib Require Import ZArith String Ascii List Lia DecimalString.
From stdpp Require Import base strings.
Import ListNotations.

Local Open Scope string_scope.
Local Open Scope Z_scope.
Local Open Scope list_scope.

(* String concatenation unfolds on a literal or a constructor, as the
   proofs below need it to. *)
#[local] Arguments String.append !s1 s2 : simpl nomatch.

(** ** Python values shared by both modules *)

(** The double quote character (code 34), escaped in the Python sources. *)
Definition dquote : string := String "034"%char EmptyString.

(** [raise Exception(msg)].  Every [raise] of the two modules builds a
    plain [Exception]; [AttributeError] is what reading [.pid] of [None]
    raises. *)
Inductive exn : Type :=
  | Exception (msg : string)
  | AttributeError (msg : string).

(** The result of running a piece of Python: a value, or a raised
    exception. *)
Inductive outcome (A : Type) : Type :=
  | Return (a : A)
  | Raise (e : exn).
Arguments Return {A} a.
Arguments Raise {A} e.

(** [stepicstudio.operations_statuses.statuses.ExecutionStatus]. *)
Inductive ExecutionStatus : Type :=
  | SUCCESS
  | FIXABLE_ERROR
  | FATAL_ERROR.

#[global] Instance ExecutionStatus_eq_dec : EqDecision ExecutionStatus.
Proof. solve_decision. Defined.

(** The second argument of [InternalOperationResult]: omitted, a text, or
    the exception object caught by an [except] clause. *)
Inductive message_t : Type :=
  | NoMessage
  | Text (s : string)
  | Caught (e : exn).

(** [InternalOperationResult(status, message)]. *)
Record InternalOperationResult : Type := mkResult {
  status : ExecutionStatus;
  message : message_t
}.

(** ** Programs with a state, a call trace and exceptions

    A method body is a function of the object's state and of the trace of
    calls made so far to the collaborators (file system client, task
    manager, logger); it yields a value or an exception, the new state and
    the extended trace. *)
Module Prog.
Section Prog.
Context {St Ev : Type}.

Definition M (A : Type) : Type := St -> list Ev -> outcome A * St * list Ev.

Definition ret {A} (a : A) : M A := fun s t => (Return a, s, t).

Definition bind {A B} (m : M A) (k : A -> M B) : M B :=
  fun s t =>
    match m s t with
    | (Return a, s', t') => k a s' t'
    | (Raise e, s', t') => (Raise e, s', t')
    end.

Definition get : M St := fun s t => (Return s, s, t).
Definition put (s : St) : M unit := fun _ t => (Return tt, s, t).
Definition call (e : Ev) : M unit := fun s t => (Return tt, s, t ++ [e]).
Definition throw {A} (e : exn) : M A := fun s t => (Raise e, s, t).

(** [try: m except Exception as e: h e]. *)
Definition try_except {A} (m : M A) (h : exn -> M A) : M A :=
  fun s t =>
    match m s t with
    | (Return a, s', t') => (Return a, s', t')
    | (Raise e, s', t') => h e s' t'
    end.

(** Lifting of a pure computation that may raise. *)
Definition lift {A} (o : outcome A) : M A := fun s t => (o, s, t).

(** The value returned by a run (or the exception raised), the final
    state and the trace of calls at the end. *)
Definition returned {A} (r : outcome A * St * list Ev) : outcome A := fst (fst r).
Definition final {A} (r : outcome A * St * list Ev) : St := snd (fst r).
Definition calls {A} (r : outcome A * St * list Ev) : list Ev := snd r.
End Prog.
Arguments M : clear implicits.
End Prog.

Notation "'do' x <- m ; k" := (Prog.bind m (fun x => k))
  (at level 10, x name, m at level 100, k at level 200).
Notation "'run' m ; k" := (Prog.bind m (fun _ => k))
  (at level 10, m at level 100, k at level 200).

(** ** Python dictionaries

    A [dict] keeps its keys in insertion order, and [append_dict] prints
    the items in that order: a dictionary is the list of its items, with
    [d[k] = v] replacing the value in place when [k] is present and adding
    the item at the end otherwise. *)
Module PyDict.
Section PyDict.
Context {V : Type}.

Definition t : Type := list (string * V).

Definition empty : t := [].

Fixpoint get (k : string) (d : t) : option V :=
  match d with
  | [] => None
  | (k', v) :: d' => if String.eqb k' k then Some v else get k d'
  end.

(** [d[k] = v] *)
Fixpoint set (k : string) (v : V) (d : t) : t :=
  match d with
  | [] => [(k, v)]
  | (k', v') :: d' =>
      if String.eqb k' k then (k', v) :: d' else (k', v') :: set k v d'
  end.

(** [d.update(other)] *)
Definition update (d other : t) : t :=
  fold_left (fun acc kv => set (fst kv) (snd kv) acc) other d.

Definition keys (d : t) : list string := map fst d.
End PyDict.
Arguments t : clear implicits.
End PyDict.

(** ** The command builder: [PPROCommandBuilder] *)

(** A value printed by [str.format]: a [str] prints as itself, a number
    through [str_num], Python's printing of numbers. *)
Inductive pyval (num : Type) : Type :=
  | PyStr (s : string)
  | PyNum (n : num).
Arguments PyStr {num} s.
Arguments PyNum {num} n.

(** The dictionary given to [append_dict] with its [val_type]: with
    [val_type=list] (the default) the values are lists, otherwise they are
    scalars, as at both call sites. *)
Inductive dict_source (num : Type) : Type :=
  | ListValued (d : PyDict.t (list (pyval num)))
  | ScalarValued (d : PyDict.t (pyval num)).
Arguments ListValued {num} d.
Arguments ScalarValued {num} d.

Module Builder.
Section Builder.
Context {num : Type} (str_num : num -> string).

(** The two attributes set by [__init__]. *)
Record PPROCommandBuilder : Type := mkBuilder {
  base_command : string;
  script_to_include : string
}.

(** [PPROCommandBuilder(base_command)] *)
Definition init (base : string) : PPROCommandBuilder :=
  {| base_command := base +:+ " " +:+ dquote;
     script_to_include := EmptyString |}.

(** ['{}'.format(v)] *)
Definition format (v : pyval num) : string :=
  match v with
  | PyStr s => s
  | PyNum n => str_num n
  end.

(** [self.base_command += text] *)
Definition extend (text : string) (b : PPROCommandBuilder) : PPROCommandBuilder :=
  {| base_command := base_command b +:+ text;
     script_to_include := script_to_include b |}.

(** A [str] is falsy exactly when it is empty. *)
Definition truthy (s : string) : bool :=
  match s with
  | EmptyString => false
  | String _ _ => true
  end.

Definition _list_to_array (source_list : list (pyval num)) : string :=
  match source_list with
  | [] => "[]"
  | _ => "[" +:+ String.concat ", " (map (fun item => "'" +:+ format item +:+ "'") source_list) +:+ "]"
  end.

Definition opening_document_text (path : string) : string :=
  "app.openDocument(" +:+ "'" +:+ path +:+ "'" +:+ ");".

Definition append_opening_document (path : string) (b : PPROCommandBuilder)
  : outcome PPROCommandBuilder :=
  Return (extend (opening_document_text path) b).

Definition include_text (path : string) : string :=
  " //@include '" +:+ path +:+ "'".

Definition append_script_including (path : string) (b : PPROCommandBuilder)
  : outcome PPROCommandBuilder :=
  if truthy (script_to_include b)
  then Raise (Exception "Command already contains script including")
  else Return {| base_command := base_command b;
                 script_to_include := include_text path |}.

Definition eval_file_text (path : string) : string :=
  " $.evalFile(" +:+ dquote +:+ path +:+ dquote +:+ ");".

Definition append_eval_file (path : string) (b : PPROCommandBuilder)
  : outcome PPROCommandBuilder :=
  Return (extend (eval_file_text path) b).

Definition string_const_text (const_name const_value : string) : string :=
  " const " +:+ const_name +:+ " = '" +:+ const_value +:+ "';".

Definition append_string_const (const_name const_value : string)
  (b : PPROCommandBuilder) : outcome PPROCommandBuilder :=
  Return (extend (string_const_text const_name const_value) b).

Definition const_array_text (const_name : string) (const_values : list (pyval num))
  : string :=
  " const " +:+ const_name +:+ " = " +:+ _list_to_array const_values +:+ ";".

Definition append_const_array (const_name : string)
  (const_values : list (pyval num)) (b : PPROCommandBuilder)
  : outcome PPROCommandBuilder :=
  Return (extend (const_array_text const_name const_values) b).

(** [str(bool_value).lower()] *)
Definition str_bool_lower (v : bool) : string :=
  if v then "true" else "false".

Definition bool_value_text (bool_name : string) (bool_value : bool) : string :=
  " var " +:+ bool_name +:+ " = Boolean(" +:+ str_bool_lower bool_value +:+ ");".

Definition append_bool_value (bool_name : string) (bool_value : bool)
  (b : PPROCommandBuilder) : outcome PPROCommandBuilder :=
  Return (extend (bool_value_text bool_name bool_value) b).

Definition dict_data (source_dict : dict_source num) : string :=
  match source_dict with
  | ListValued d =>
      String.concat ", "
        (map (fun kv => "'" +:+ fst kv +:+ "': " +:+ _list_to_array (snd kv)) d)
  | ScalarValued d =>
      String.concat ", "
        (map (fun kv => "'" +:+ fst kv +:+ "': " +:+ format (snd kv)) d)
  end.

Definition dict_text (name : string) (source_dict : dict_source num) : string :=
  " var " +:+ name +:+ " = {" +:+ dict_data source_dict +:+ "};".

Definition append_dict (name : string) (source_dict : dict_source num)
  (b : PPROCommandBuilder) : outcome PPROCommandBuilder :=
  Return (extend (dict_text name source_dict) b).

(** [build] changes [base_command] when a script is to be included, and
    returns the command text: the result is the text and the builder as
    [build] leaves it. *)
Definition build (b : PPROCommandBuilder) : string * PPROCommandBuilder :=
  let b' := if truthy (script_to_include b)
            then extend (script_to_include b) b
            else b in
  (base_command b' +:+ dquote, b').

(** A call of one of the append methods, with its arguments. *)
Inductive append_call : Type :=
  | OpeningDocument (path : string)
  | ScriptIncluding (path : string)
  | EvalFile (path : string)
  | StringConst (const_name const_value : string)
  | ConstArray (const_name : string) (const_values : list (pyval num))
  | BoolValue (bool_name : string) (bool_value : bool)
  | Dict (name : string) (source_dict : dict_source num).

Definition apply_call (c : append_call) : PPROCommandBuilder -> outcome PPROCommandBuilder :=
  match c with
  | OpeningDocument path => append_opening_document path
  | ScriptIncluding path => append_script_including path
  | EvalFile path => append_eval_file path
  | StringConst n v => append_string_const n v
  | ConstArray n vs => append_const_array n vs
  | BoolValue n v => append_bool_value n v
  | Dict n d => append_dict n d
  end.

(** A chain [b.m1(..).m2(..)...]: the calls from left to right, stopping
    at the first one that raises. *)
Fixpoint chain (calls : list append_call) (b : PPROCommandBuilder)
  : outcome PPROCommandBuilder :=
  match calls with
  | [] => Return b
  | c :: calls' =>
      match apply_call c b with
      | Return b' => chain calls' b'
      | Raise e => Raise e
      end
  end.

(** The text a call adds to [base_command] at once; the include
    directive is kept aside instead. *)
Definition appended_text (c : append_call) : string :=
  match c with
  | OpeningDocument path => opening_document_text path
  | ScriptIncluding _ => EmptyString
  | EvalFile path => eval_file_text path
  | StringConst n v => string_const_text n v
  | ConstArray n vs => const_array_text n vs
  | BoolValue n v => bool_value_text n v
  | Dict n d => dict_text n d
  end.

Definition is_including (c : append_call) : bool :=
  match c with
  | ScriptIncluding _ => true
  | _ => false
  end.

(** The texts of a sequence of calls, one after the other. *)
Fixpoint appended_texts (calls : list append_call) : string :=
  match calls with
  | [] => EmptyString
  | c :: calls' => appended_text c +:+ appended_texts calls'
  end.

Definition ALREADY_INCLUDING : exn :=
  Exception "Command already contains script including".

(** Calls among which there is no [append_script_including]. *)
Definition plain (calls : list append_call) : Prop :=
  Forall (fun c => is_including c = false) calls.
End Builder.
End Builder.

(** ** Logging

    A call [logger.level(template, args...)]: the template and its
    arguments, as given (the logging module formats them later). *)
Inductive log_level : Type := INFO | WARNING | ERROR.

Inductive log_arg : Type :=
  | ArgStr (s : string)
  | ArgMsg (m : message_t)
  | ArgPid (pid : option Z).

(** ** The walk over the recorded files: [get_target_step_files] and its
    two callers *)

(** The attributes of a [SubStep] row that the walk reads. *)
Record SubStep : Type := mkSubStep {
  is_videos_ok : bool;
  os_screencast_path : string;
  os_path : string;
  screencast_name : string;
  camera_recording_name : string
}.

(** The four values returned by the three walks, in the order of the
    returned tuple. *)
Record target_files : Type := mkFiles {
  screen_files : list string;
  prof_files : list string;
  marker_times : PyDict.t (list Z);
  sync_offsets : PyDict.t Z
}.

(** A [Step], [Lesson] or [Course] row: its [id] and its [os_path]. *)
Record db_row : Type := mkRow {
  id : Z;
  row_os_path : string
}.

Module Exporting.
Section Walk.
(** [os.path.isfile] and [os.path.isdir] on the disk as it is during the
    walk. *)
Variable isfile : string -> bool.
Variable isdir : string -> bool.
(** [get_sync_offset] and [get_diff_times]: the offset between the two
    recordings of a sub-step, signed, and the times of the frame changes
    of a screencast.  Both are imported from modules outside these files. *)
Variable get_sync_offset : SubStep -> Z.
Variable get_diff_times : string -> list Z.
(** The query sets [SubStep.objects.filter(from_step=i).order_by('start_time')],
    [Step.objects.filter(from_lesson=i).order_by('start_time')] and
    [Lesson.objects.filter(from_course=i).order_by('start_time')], as the
    lists of rows they iterate over. *)
Variable substeps_of_step : Z -> list SubStep.
Variable steps_of_lesson : Z -> list db_row.
Variable lessons_of_course : Z -> list db_row.

Definition no_files : target_files :=
  {| screen_files := []; prof_files := [];
     marker_times := PyDict.empty; sync_offsets := PyDict.empty |}.

(** The condition of the [if] in the loop of [get_target_step_files]. *)
Definition substep_ready (substep : SubStep) : bool :=
  is_videos_ok substep
  && isfile (os_screencast_path substep)
  && isfile (os_path substep).

(** The assignments to [sync_offsets] at the end of the loop body. *)
Definition record_offset (substep : SubStep) (curr_sync_offset : Z)
  (offsets : PyDict.t Z) : PyDict.t Z :=
  if 0 <? curr_sync_offset
  then PyDict.set (screencast_name substep) curr_sync_offset offsets
  else PyDict.set (camera_recording_name substep) (Z.abs curr_sync_offset) offsets.

(** One turn of the loop of [get_target_step_files]. *)
Definition step_loop_body (acc : target_files) (substep : SubStep) : target_files :=
  if substep_ready substep then
    let screen_files' := screen_files acc ++ [screencast_name substep] in
    let prof_files' := prof_files acc ++ [camera_recording_name substep] in
    let curr_sync_offset := get_sync_offset substep in
    let marker_times' :=
      PyDict.set (screencast_name substep)
        (get_diff_times (os_screencast_path substep)) (marker_times acc) in
    {| screen_files := screen_files';
       prof_files := prof_files';
       marker_times := marker_times';
       sync_offsets := record_offset substep curr_sync_offset (sync_offsets acc) |}
  else acc.

Definition get_target_step_files (step_obj : db_row) : target_files :=
  fold_left step_loop_body (substeps_of_step (id step_obj)) no_files.

(** [extend] on the two lists and [update] on the two dictionaries. *)
Definition merge_files (acc part : target_files) : target_files :=
  {| screen_files := screen_files acc ++ screen_files part;
     prof_files := prof_files acc ++ prof_files part;
     marker_times := PyDict.update (marker_times acc) (marker_times part);
     sync_offsets := PyDict.update (sync_offsets acc) (sync_offsets part) |}.

Definition get_target_lesson_files (lesson_obj : db_row) : target_files :=
  if isdir (row_os_path lesson_obj)
  then fold_left (fun acc step => merge_files acc (get_target_step_files step))
         (steps_of_lesson (id lesson_obj)) no_files
  else no_files.

Definition get_target_course_files (course_obj : db_row) : target_files :=
  if isdir (row_os_path course_obj)
  then fold_left (fun acc lesson => merge_files acc (get_target_lesson_files lesson))
         (lessons_of_course (id course_obj)) no_files
  else no_files.

(** The file name to which the loop body attributes the offset of a
    sub-step. *)
Definition offset_key (substep : SubStep) : string :=
  if 0 <? get_sync_offset substep
  then screencast_name substep
  else camera_recording_name substep.
End Walk.
End Exporting.

(** ** The export entry point: [build_ppro_command] and
    [export_obj_to_prproj] *)

Definition newline : string := String "010"%char EmptyString.

Definition PRPROJ_TEMPLATE : string := "template.prproj".
Definition PRPROJ_REQUIRED_FILE : string := "extendscriptprqe.txt".
Definition PRPROJ_PRESET : string := "ppro.sqpreset".
Definition PRPROJ_SCRIPT : string := "create_deep_structured_project.jsx".
Definition PPRO_WIN_PROCESS_NAME : string := "Adobe Premiere Pro.exe".

(** The calls that [export_obj_to_prproj] makes to its collaborators. *)
Inductive export_call : Type :=
  | ProcessWithNameExists (name : string)
  | FilesExtractor
  | BuildPPROCommand
  | ExecuteCommandSync (command : string) (allowable_code : Z)
  | ExportLog (level : log_level) (template : string) (args : list log_arg).

Module ExportObj.
Section ExportObj.
(** [settings.ADOBE_PPRO_PATH] and [settings.ADOBE_PPRO_CMD]. *)
Variable ADOBE_PPRO_PATH : string.
Variable ADOBE_PPRO_CMD : string.
(** [os.path.dirname(__file__)], [os.path.dirname], [os.path.join],
    [os.path.isfile], and [s.replace(os.sep, ...)] which doubles the
    path separator. *)
Variable module_dir : string.
Variable dirname : string -> string.
Variable path_join : string -> string -> string.
Variable isfile : string -> bool.
Variable escape_sep : string -> string.
(** Python's printing of a number. *)
Variable str_num : Z -> string.
(** [translate_non_alphanumerics] of [stepicstudio.utils.extra]. *)
Variable translate_non_alphanumerics : string -> string.
(** The answers of [FileSystemClient]: whether a process of that name
    runs, and the result of running a command to its end. *)
Variable process_with_name_exists : string -> bool.
Variable execute_command_sync : string -> Z -> InternalOperationResult.
(** The exported object, its [os_path] and [name], and the extractor
    given with it. *)
Context {Obj : Type}.
Variable obj_os_path : Obj -> string.
Variable obj_name : Obj -> string.
Variable files_extractor : Obj -> target_files.

Definition PRPROJ_TEMPLATES_PATH : string := path_join module_dir "adobe_templates".

Definition build_ppro_command (base_path templates_path : string)
  (screen_files prof_files : list string)
  (marker_times : PyDict.t (list Z)) (sync_offsets : PyDict.t Z)
  (output_name : string) : outcome string :=
  if negb (Builder.truthy ADOBE_PPRO_PATH) then
    Raise (Exception ("Adobe PremierePro configuration is missing. "
                      +:+ "Please, specify path to PremierePro in config file."))
  else
    let base_command := dquote +:+ ADOBE_PPRO_PATH +:+ dquote +:+ " " +:+ ADOBE_PPRO_CMD in
    let prproj_template_path := path_join templates_path PRPROJ_TEMPLATE in
    let prproj_preset_path := path_join templates_path PRPROJ_PRESET in
    let script_path := path_join (path_join module_dir "adobe_scripts") PRPROJ_SCRIPT in
    if negb (isfile prproj_template_path) then
      Raise (Exception ("Template of PremierPro project is missing. "
                        +:+ "Please, create empty PPro project at "
                        +:+ prproj_template_path))
    else if negb (isfile prproj_preset_path) then
      Raise (Exception (".sqpreset sequence template file is missing. "
                        +:+ "Please, put .sqpreset at " +:+ prproj_preset_path))
    else
      match
        Builder.chain str_num
          [ Builder.OpeningDocument (escape_sep prproj_template_path);
            Builder.StringConst "outputName" output_name;
            Builder.StringConst "basePath" (escape_sep base_path);
            Builder.StringConst "presetPath" (escape_sep prproj_preset_path);
            Builder.ConstArray "screenVideos" (map PyStr screen_files);
            Builder.ConstArray "professorVideos" (map PyStr prof_files);
            Builder.BoolValue "needSync" true;
            Builder.Dict "markerTimes"
              (ListValued (map (fun kv => (fst kv, map PyNum (snd kv))) marker_times));
            Builder.Dict "syncOffsets"
              (ScalarValued (map (fun kv => (fst kv, PyNum (snd kv))) sync_offsets));
            Builder.ScriptIncluding (escape_sep script_path) ]
          (Builder.init base_command)
      with
      | Return b => Return (fst (Builder.build b))
      | Raise e => Raise e
      end.

Definition M : Type -> Type := Prog.M unit export_call.

Definition required_file_missing (ppro_dir : string) : string :=
  "'" +:+ PRPROJ_REQUIRED_FILE +:+ "' is missing. Please, place '"
  +:+ PRPROJ_REQUIRED_FILE +:+ "' empty file to " +:+ newline
  +:+ "'" +:+ ppro_dir +:+ "'.".

(** A list is falsy exactly when it is empty. *)
Definition is_empty {A} (l : list A) : bool :=
  match l with
  | [] => true
  | _ :: _ => false
  end.

Definition export_obj_to_prproj (db_object : Obj) : M InternalOperationResult :=
  let ppro_dir := dirname ADOBE_PPRO_PATH in
  if negb (isfile (path_join ppro_dir PRPROJ_REQUIRED_FILE)) then
    Prog.ret (mkResult FATAL_ERROR (Text (required_file_missing ppro_dir)))
  else
    run Prog.call (ProcessWithNameExists PPRO_WIN_PROCESS_NAME);
    if process_with_name_exists PPRO_WIN_PROCESS_NAME then
      Prog.ret (mkResult FATAL_ERROR
        (Text "Only one instance of PPro may exist. Please, close PPro and try again."))
    else
      run Prog.call FilesExtractor;
      let files := files_extractor db_object in
      if is_empty (screen_files files) || is_empty (prof_files files) then
        Prog.ret (mkResult FATAL_ERROR (Text "Object is empty or subitems are broken."))
      else
        do built <-
          Prog.try_except
            (run Prog.call BuildPPROCommand;
             do ppro_command <-
               Prog.lift (build_ppro_command (obj_os_path db_object)
                            PRPROJ_TEMPLATES_PATH
                            (screen_files files) (prof_files files)
                            (marker_times files) (sync_offsets files)
                            (translate_non_alphanumerics (obj_name db_object)));
             Prog.ret (inl ppro_command))
            (fun e => Prog.ret (inr (mkResult FATAL_ERROR (Caught e))));
        match built with
        | inr failure => Prog.ret failure
        | inl ppro_command =>
            run Prog.call (ExecuteCommandSync ppro_command 1);
            let exec_status := execute_command_sync ppro_command 1 in
            if decide (status exec_status = SUCCESS) then
              run Prog.call (ExportLog INFO
                     ("Execution of PPro command started; " +:+ newline
                      +:+ " PPro command: %s") [ArgStr ppro_command]);
              Prog.ret (mkResult SUCCESS NoMessage)
            else
              run Prog.call (ExportLog ERROR
                     ("Cannot execute PPro command: %s " +:+ newline
                      +:+ " PPro command: %s")
                     [ArgMsg (message exec_status); ArgStr ppro_command]);
              Prog.ret (mkResult FATAL_ERROR
                (Text "Cannot execute PPro command. Check PPro configuration."))
        end.

(** The calls of a trace that hand a command to the file system client. *)
Definition is_execution (c : export_call) : bool :=
  match c with
  | ExecuteCommandSync _ _ => true
  | _ => false
  end.

Definition is_building (c : export_call) : bool :=
  match c with
  | BuildPPROCommand => true
  | _ => false
  end.

(** Neither the construction of a command nor the execution of one. *)
Definition quiet (c : export_call) : Prop :=
  is_building c = false /\ is_execution c = false.
End ExportObj.
End ExportObj.

(** ** The camera recorder: [ServerCameraRecorder] *)

Definition KILL_DELAY : Z := 3.

(** The handle returned by [subprocess.Popen]: what the recorder reads of
    it is its [pid]. *)
Record Popen : Type := mkPopen {
  pid : Z
}.

(** The callable given to the task manager. *)
Inductive task : Type :=
  | kill_process.

(** The calls that the recorder makes to its collaborators: the file
    system client, the task manager, the post-processing pipe of the base
    class, and the logger. *)
Inductive recorder_call : Type :=
  | ExecuteCommand (command : string)
  | SendQuitSignal (process : option Popen)
  | RunWithDelay (callable : task) (args : list Z) (delay : Z)
  | ApplyPipe (path file : option string)
  | RecorderLog (level : log_level) (template : string) (args : list log_arg).

(** The attributes of the recorder that its methods assign. *)
Record ServerCameraRecorder : Type := mkRecorder {
  __process : option Popen;
  last_processed_path : option string;
  last_processed_file : option string
}.

Module CameraRecorder.
Section CameraRecorder.
(** [FFMPEGcommand] of [stepicstudio.const]. *)
Variable FFMPEGcommand : string.
Variable path_join : string -> string -> string.
(** The answers of the outside world: [Popen.poll] ([None] while the
    process runs), the launch of a command, which gives a result and a
    handle, and the sending of the quit signal. *)
Variable poll : Popen -> option Z.
Variable execute_command : string -> InternalOperationResult * option Popen.
Variable send_quit_signal : option Popen -> InternalOperationResult.

Definition M : Type -> Type := Prog.M ServerCameraRecorder recorder_call.

(** The state set by [__init__]. *)
Definition init : ServerCameraRecorder :=
  {| __process := None; last_processed_path := None; last_processed_file := None |}.

Definition is_active (self : ServerCameraRecorder) : bool :=
  match __process self with
  | None => false
  | Some p => match poll p with
              | None => true
              | Some _ => false
              end
  end.

(** [self.__process.pid] *)
Definition process_pid (self : ServerCameraRecorder) : M Z :=
  match __process self with
  | Some p => Prog.ret (pid p)
  | None => Prog.throw (AttributeError "'NoneType' object has no attribute 'pid'")
  end.

Definition set_process (p : option Popen) (self : ServerCameraRecorder)
  : ServerCameraRecorder :=
  {| __process := p;
     last_processed_path := last_processed_path self;
     last_processed_file := last_processed_file self |}.

Definition set_last_processed_file (f : string) (self : ServerCameraRecorder)
  : ServerCameraRecorder :=
  {| __process := __process self;
     last_processed_path := last_processed_path self;
     last_processed_file := Some f |}.

Definition set_last_processed_path (p : string) (self : ServerCameraRecorder)
  : ServerCameraRecorder :=
  {| __process := __process self;
     last_processed_path := Some p;
     last_processed_file := last_processed_file self |}.

Definition start_recording (path filename : string) : M InternalOperationResult :=
  do self <- Prog.get;
  if is_active self then
    do p <- process_pid self;
    run Prog.call (RecorderLog ERROR
      ("Can't start FFMPEG for file %s: camera is acctually recording "
       +:+ "(process with PID %s)")
      [ArgStr (path_join path filename); ArgPid (Some p)]);
    Prog.ret (mkResult FATAL_ERROR (Text "Camera is actually recording"))
  else
    let local_command := FFMPEGcommand +:+ path_join path filename in
    run Prog.call (ExecuteCommand local_command);
    let '(result, process) := execute_command local_command in
    run Prog.put (set_process process self);
    if decide (status result = SUCCESS) then
      do self <- Prog.get;
      do p <- process_pid self;
      run Prog.call (RecorderLog INFO
        "Successfully start camera recording (FFMPEG PID: %s; FFMPEG command: %s)"
        [ArgPid (Some p); ArgStr local_command]);
      run Prog.put (set_last_processed_file filename self);
      do self <- Prog.get;
      run Prog.put (set_last_processed_path path self);
      Prog.ret result
    else
      run Prog.call (RecorderLog ERROR
        "Camera recording start failed: %s; FFMPEG command: %s"
        [ArgMsg (message result); ArgStr local_command]);
      Prog.ret result.

Definition stop_recording : M InternalOperationResult :=
  do self <- Prog.get;
  if negb (is_active self) then
    do p <-
      match __process self with
      | None => Prog.ret None
      | Some process =>
          run Prog.put (set_process None self);
          Prog.ret (Some (pid process))
      end;
    run Prog.call (RecorderLog WARNING
      ("Camera isn't active: can't stop non existing FFMPEG process "
       +:+ "(try to stop process with PID %s)") [ArgPid p]);
    Prog.ret (mkResult SUCCESS
      (Text "Camera isn't active: can't stop non existing FFMPEG process"))
  else
    run Prog.call (SendQuitSignal (__process self));
    let result := send_quit_signal (__process self) in
    do p <- process_pid self;
    run Prog.call (RunWithDelay kill_process [p] KILL_DELAY);
    if decide (status result = SUCCESS) then
      run Prog.call (RecorderLog INFO
        "Successfully stop camera recording (FFMPEG PID: %s)" [ArgPid (Some p)]);
      run Prog.put (set_process None self);
      do self <- Prog.get;
      run Prog.call (ApplyPipe (last_processed_path self) (last_processed_file self));
      Prog.ret result
    else
      run Prog.call (RecorderLog ERROR
        "Problems while stop camera recording (FFMPEG PID: %s) : %s"
        [ArgPid (Some p); ArgMsg (message result)]);
      Prog.ret result.

Definition is_launch (c : recorder_call) : bool :=
  match c with
  | ExecuteCommand _ => true
  | _ => false
  end.

Definition is_quit_signal (c : recorder_call) : bool :=
  match c with
  | SendQuitSignal _ => true
  | _ => false
  end.

Definition is_scheduling (c : recorder_call) : bool :=
  match c with
  | RunWithDelay _ _ _ => true
  | _ => false
  end.
End CameraRecorder.
End CameraRecorder.

(** ** A sample course

    Concrete rows, files and answers of the outside world, on which the
    definitions above can be run. *)
Module Sample.

(** Python's printing of an integer. *)
Definition str_num (n : Z) : string := NilZero.string_of_int (Z.to_int n).

Definition path_join (a b : string) : string := a +:+ "/" +:+ b.

Definition substepA : SubStep :=
  {| is_videos_ok := true;
     os_screencast_path := "/course/lesson/step/screenA";
     os_path := "/course/lesson/step/profA";
     screencast_name := "screenA";
     camera_recording_name := "profA" |}.

Definition substepB : SubStep :=
  {| is_videos_ok := true;
     os_screencast_path := "/course/lesson/step/screenB";
     os_path := "/course/lesson/step/profB";
     screencast_name := "screenB";
     camera_recording_name := "profB" |}.

(** A sub-step whose screen cast is not on the disk. *)
Definition substepC : SubStep :=
  {| is_videos_ok := true;
     os_screencast_path := "/course/lesson/step/missing";
     os_path := "/course/lesson/step/profC";
     screencast_name := "screenC";
     camera_recording_name := "profC" |}.

Definition isfile (path : string) : bool :=
  negb (String.eqb path "/course/lesson/step/missing").

(** The screen cast of A is 120 late, the camera recording of B is 50
    late. *)
Definition get_sync_offset (substep : SubStep) : Z :=
  if String.eqb (screencast_name substep) "screenA" then 120 else -50.

Definition get_diff_times (path : string) : list Z :=
  if String.eqb path "/course/lesson/step/screenA" then [3; 14] else [].

Definition substeps_of_step (step_id : Z) : list SubStep :=
  [substepA; substepC; substepB].

Definition step : db_row := {| id := 1; row_os_path := "/course/lesson/step" |}.

Definition step_files : target_files :=
  Exporting.get_target_step_files isfile get_sync_offset get_diff_times
    substeps_of_step step.

(** The settings and the disk of a machine on which Premiere Pro is set
    up, with its required file, the project template and the preset. *)
Definition ADOBE_PPRO_PATH : string := "/ppro/premiere".
Definition ADOBE_PPRO_CMD : string := "/C es.processFile".
Definition module_dir : string := "/studio/exporting".
Definition dirname (path : string) : string := "/ppro".
Definition escape_sep (path : string) : string := path.
Definition translate_non_alphanumerics (name : string) : string := name.

Definition ppro_ready (path : string) : bool :=
  String.eqb path "/ppro/extendscriptprqe.txt"
  || String.eqb path "/studio/exporting/adobe_templates/template.prproj"
  || String.eqb path "/studio/exporting/adobe_templates/ppro.sqpreset".

(** The same machine without the preset. *)
Definition ppro_without_preset (path : string) : bool :=
  String.eqb path "/ppro/extendscriptprqe.txt"
  || String.eqb path "/studio/exporting/adobe_templates/template.prproj".

Definition ppro_running (name : string) : bool := true.
Definition ppro_not_running (name : string) : bool := false.

Definition execute_command_sync (command : string) (allowable_code : Z)
  : InternalOperationResult := mkResult SUCCESS NoMessage.

Definition extractor_of_step (step_obj : db_row) : target_files := step_files.
Definition extractor_of_nothing (step_obj : db_row) : target_files :=
  Exporting.no_files.

Definition export (isfile : string -> bool) (running : string -> bool)
    (extractor : db_row -> target_files) :=
  ExportObj.export_obj_to_prproj ADOBE_PPRO_PATH ADOBE_PPRO_CMD module_dir
    dirname path_join isfile escape_sep str_num translate_non_alphanumerics
    running execute_command_sync row_os_path (fun _ => "step") extractor.

(** A recorder whose capture process, of identifier 4242, is running, and
    answers of the outside world: the process 4242 runs, the launch of a
    command fails, the quit signal is not delivered. *)
Definition FFMPEGcommand : string := "ffmpeg -f dshow -i video=cam ".
Definition capture : Popen := {| pid := 4242 |}.
Definition poll (p : Popen) : option Z := if pid p =? 4242 then None else Some 0.
Definition failing_launch (command : string) : InternalOperationResult * option Popen :=
  (mkResult FATAL_ERROR (Text "Cannot exec"), Some {| pid := 1 |}).
Definition failing_quit (p : option Popen) : InternalOperationResult :=
  mkResult FATAL_ERROR (Text "Cannot send quit signal").

Definition recording : ServerCameraRecorder :=
  {| __process := Some capture;
     last_processed_path := Some "/course/lesson/step";
     last_processed_file := Some "profA" |}.

Definition idle : ServerCameraRecorder :=
  {| __process := None;
     last_processed_path := Some "/course/lesson/step";
     last_processed_file := Some "profA" |}.
End Sample.

(** ** Measures and sequences of calls

    What the statements below count or run: the script inclusions of a
    chain, the sub-steps that a walk keeps, two calls of a method one
    after the other. *)
Module Derived.

(** The number of [append_script_including] among the calls of a chain. *)
Definition includes {num : Type} (calls : list (@Builder.append_call num)) : nat :=
  length (List.filter Builder.is_including calls).

(** [build()], then a chain of calls on the builder it leaves, then
    [build()] again: the second text. *)
Definition build_chain_build {num : Type} (str_num : num -> string)
    (calls : list (@Builder.append_call num)) (b : Builder.PPROCommandBuilder)
  : outcome string :=
  match Builder.chain str_num calls (snd (Builder.build b)) with
  | Return b' => Return (fst (Builder.build b'))
  | Raise e => Raise e
  end.

(** The sub-steps of a step that pass the check of the loop of
    [get_target_step_files], in the order of the query. *)
Definition kept (isfile : string -> bool) (substeps_of_step : Z -> list SubStep)
    (step_obj : db_row) : list SubStep :=
  List.filter (Exporting.substep_ready isfile) (substeps_of_step (id step_obj)).

(** An offset that is not negative, as an item of [sync_offsets]. *)
Definition nonnegative (item : string * Z) : Prop := 0 <= snd item.

(** The calls of the recorder that run the post-processing pipe. *)
Definition is_apply_pipe (c : recorder_call) : bool :=
  match c with
  | ApplyPipe _ _ => true
  | _ => false
  end.

(** A call of the recorder that reaches a process or the pipe: anything
    but a call of the logger. *)
Definition is_effect (c : recorder_call) : bool :=
  match c with
  | RecorderLog _ _ _ => false
  | _ => true
  end.

(** As many screen casts as camera recordings. *)
Definition balanced (files : target_files) : Prop :=
  length (screen_files files) = length (prof_files files).
End Derived.

(** ** More of the sample course

    A lesson and a course around the sample step, a machine without
    Premiere Pro, an execution that fails, and a capture that starts and
    stops as asked. *)
Module Scenario.
Import Sample.

Definition lesson : db_row := {| id := 10; row_os_path := "/course/lesson" |}.
Definition lost_lesson : db_row := {| id := 11; row_os_path := "/course/lost" |}.
Definition course : db_row := {| id := 100; row_os_path := "/course" |}.
(** A course whose directory is there and whose lessons are all lost. *)
Definition hollow_course : db_row := {| id := 101; row_os_path := "/course" |}.

Definition isdir (path : string) : bool :=
  String.eqb path "/course/lesson" || String.eqb path "/course".

Definition steps_of_lesson (lesson_id : Z) : list db_row := [step; step].

Definition lessons_of_course (course_id : Z) : list db_row :=
  if course_id =? 100 then [lesson; lost_lesson] else [lost_lesson; lost_lesson].

Definition nothing_on_disk (path : string) : bool := false.

Definition failing_execution (command : string) (allowable_code : Z)
  : InternalOperationResult := mkResult FIXABLE_ERROR (Text "exit code 2").

Definition export_failing :=
  ExportObj.export_obj_to_prproj ADOBE_PPRO_PATH ADOBE_PPRO_CMD module_dir
    dirname path_join ppro_ready escape_sep str_num translate_non_alphanumerics
    ppro_not_running failing_execution row_os_path (fun _ => "step")
    extractor_of_step.

Definition sample_command : string :=
  match
    ExportObj.build_ppro_command ADOBE_PPRO_PATH ADOBE_PPRO_CMD module_dir
      path_join ppro_ready escape_sep str_num (row_os_path step)
      (ExportObj.PRPROJ_TEMPLATES_PATH module_dir path_join)
      (screen_files step_files) (prof_files step_files)
      (marker_times step_files) (sync_offsets step_files) "step"
  with
  | Return command => command
  | Raise _ => EmptyString
  end.

Definition launch (command : string) : InternalOperationResult * option Popen :=
  (mkResult SUCCESS NoMessage, Some capture).
Definition quit (p : option Popen) : InternalOperationResult :=
  mkResult SUCCESS NoMessage.

(** A recorder that still holds the handle of a process that has ended. *)
Definition ended : Popen := {| pid := 7 |}.
Definition stale : ServerCameraRecorder :=
  {| __process := Some ended;
     last_processed_path := Some "/course/lesson/step";
     last_processed_file := Some "profA" |}.

(** A builder on which a script was included. *)
Definition including : Builder.PPROCommandBuilder :=
  {| Builder.base_command := "ppro" +:+ " " +:+ dquote;
     Builder.script_to_include := Builder.include_text "assemble.jsx" |}.
End Scenario.

(** * Properties *)

(** ** Strings and dictionaries *)

Lemma append_assoc (a b c : string) : (a +:+ b) +:+ c = a +:+ (b +:+ c).
Proof. induction a as [|x a IH]; simpl; [reflexivity | now rewrite IH]. Qed.

Lemma append_empty_r (a : string) : a +:+ EmptyString = a.
Proof. induction a as [|x a IH]; simpl; [reflexivity | now rewrite IH]. Qed.

Module PyDictFacts.
Section PyDictFacts.
Context {V : Type}.
Implicit Types (d : PyDict.t V) (k : string) (v : V).

Lemma get_set_eq k v d : PyDict.get k (PyDict.set k v d) = Some v.
Proof.
  induction d as [|[k' v'] d IH]; simpl.
  - now rewrite String.eqb_refl.
  - destruct (String.eqb k' k) eqn:E; simpl; rewrite E; auto.
Qed.

Lemma get_set_ne k k' v d : k <> k' -> PyDict.get k' (PyDict.set k v d) = PyDict.get k' d.
Proof.
  intros Hne. induction d as [|[k0 v0] d IH]; simpl.
  - destruct (String.eqb k k') eqn:E; auto.
    apply String.eqb_eq in E. contradiction.
  - destruct (String.eqb k0 k) eqn:E; simpl.
    + apply String.eqb_eq in E. subst k0.
      destruct (String.eqb k k') eqn:E'; auto.
      apply String.eqb_eq in E'. contradiction.
    + now rewrite IH.
Qed.

Lemma get_None_keys k d : PyDict.get k d = None <-> ~ In k (PyDict.keys d).
Proof.
  induction d as [|[k0 v0] d IH]; simpl.
  - tauto.
  - destruct (String.eqb k0 k) eqn:E.
    + apply String.eqb_eq in E. split; [discriminate | tauto].
    + apply String.eqb_neq in E. rewrite IH. tauto.
Qed.

Lemma keys_set k v d :
  PyDict.keys (PyDict.set k v d) =
  match PyDict.get k d with
  | Some _ => PyDict.keys d
  | None => PyDict.keys d ++ [k]
  end.
Proof.
  induction d as [|[k0 v0] d IH]; simpl; auto.
  destruct (String.eqb k0 k) eqn:E; simpl; auto.
  rewrite IH. now destruct (PyDict.get k d).
Qed.
End PyDictFacts.
End PyDictFacts.

(** ** The command builder *)

Module BuilderFacts.
Import Builder.
Section BuilderFacts.
Context {num : Type} (str_num : num -> string).
Implicit Types (b : PPROCommandBuilder) (c : @append_call num)
  (calls : list (@append_call num)) (path : string).

Lemma truthy_include_text path : truthy (include_text path) = true.
Proof. reflexivity. Qed.

(** Every call but [append_script_including] adds its text to
    [base_command] and leaves [script_to_include] alone. *)
Lemma apply_call_plain c b :
  is_including c = false ->
  apply_call str_num c b = Return (extend (appended_text str_num c) b).
Proof. destruct c; simpl; intros H; try reflexivity; discriminate. Qed.

Lemma chain_plain calls : forall b,
  plain calls ->
  chain str_num calls b = Return (extend (appended_texts str_num calls) b).
Proof.
  induction calls as [|c calls IH]; intros b Hp; simpl.
  - unfold extend. rewrite append_empty_r. now destruct b.
  - inversion Hp as [|? ? Hc Hcalls]; subst.
    rewrite (apply_call_plain c b Hc), (IH _ Hcalls).
    unfold extend; simpl. now rewrite append_assoc.
Qed.

Lemma chain_app calls1 calls2 b :
  chain str_num (calls1 ++ calls2) b =
  match chain str_num calls1 b with
  | Return b' => chain str_num calls2 b'
  | Raise e => Raise e
  end.
Proof.
  revert b. induction calls1 as [|c calls1 IH]; intros b; simpl; auto.
  destruct (apply_call str_num c b); auto.
Qed.

(** The state of a builder after plain calls, one
    [append_script_including] and further plain calls. *)
Lemma chain_including before after path b :
  plain before -> plain after ->
  script_to_include b = EmptyString ->
  chain str_num (before ++ ScriptIncluding path :: after) b =
  Return {| base_command :=
              base_command b +:+ appended_texts str_num before
              +:+ appended_texts str_num after;
            script_to_include := include_text path |}.
Proof.
  intros Hb Ha Hfresh.
  rewrite chain_app, (chain_plain before b Hb). simpl.
  unfold append_script_including. simpl. rewrite Hfresh. simpl.
  rewrite (chain_plain after _ Ha). unfold extend. simpl.
  now rewrite append_assoc.
Qed.

(** C2.  When [append_script_including] is called once on a new builder,
    anywhere among the other append calls, every call succeeds and
    [build] returns the opening of the command, then the texts of all
    the other calls in the order of the calls, then the include
    directive, then the closing quote: the directive comes after
    everything the other calls produced. *)
Theorem include_directive_last (base : string) before after path :
  plain before -> plain after ->
  exists b,
    chain str_num (before ++ ScriptIncluding path :: after) (init base) = Return b
    /\ fst (build b) =
       (base +:+ " " +:+ dquote)
       +:+ (appended_texts str_num before +:+ appended_texts str_num after)
       +:+ include_text path +:+ dquote.
Proof.
  intros Hb Ha. eexists. split.
  - apply chain_including; auto.
  - unfold build. cbn [script_to_include]. rewrite truthy_include_text.
    unfold init. cbn [fst extend base_command script_to_include].
    now rewrite !append_assoc.
Qed.

(** C9.  Once [append_script_including] has returned, a second call of
    it on the same builder raises, whatever the two paths and whatever
    other append calls were made in between. *)
Theorem second_script_including_raises b path1 b1 between b2 path2 :
  append_script_including path1 b = Return b1 ->
  plain between ->
  chain str_num between b1 = Return b2 ->
  append_script_including path2 b2 = Raise ALREADY_INCLUDING.
Proof.
  intros H1 Hp H2.
  unfold append_script_including in H1.
  destruct (truthy (script_to_include b)); [discriminate|].
  injection H1 as <-.
  rewrite (chain_plain between _ Hp) in H2. injection H2 as <-.
  reflexivity.
Qed.
End BuilderFacts.
End BuilderFacts.

(** ** The walk over the sub-steps of a step *)

Module ExportingFacts.
Import Exporting.
Section WalkFacts.
Variable isfile : string -> bool.
Variable get_sync_offset : SubStep -> Z.
Variable get_diff_times : string -> list Z.
Variable substeps_of_step : Z -> list SubStep.

Abbreviation ready := (substep_ready isfile).
Abbreviation body := (step_loop_body isfile get_sync_offset get_diff_times).
Abbreviation key := (offset_key get_sync_offset).

(** Both branches of the [if] store the absolute value. *)
Lemma record_offset_set substep (offsets : PyDict.t Z) :
  record_offset substep (get_sync_offset substep) offsets =
  PyDict.set (key substep) (Z.abs (get_sync_offset substep)) offsets.
Proof.
  unfold record_offset, offset_key.
  destruct (0 <? get_sync_offset substep) eqn:E; [|reflexivity].
  apply Z.ltb_lt in E. now rewrite Z.abs_eq by lia.
Qed.

Lemma body_skips acc substep : ready substep = false -> body acc substep = acc.
Proof. unfold step_loop_body. now intros ->. Qed.

Lemma body_sync_offsets acc substep :
  ready substep = true ->
  sync_offsets (body acc substep) =
  PyDict.set (key substep) (Z.abs (get_sync_offset substep)) (sync_offsets acc).
Proof.
  intros Hr. unfold step_loop_body. rewrite Hr. simpl.
  apply record_offset_set.
Qed.

(** C1.  For a sub-step that passes the check of the loop, the loop
    body makes exactly one assignment to the offsets: under the screen
    cast name when the offset is positive, under the camera recording
    name otherwise, and of the absolute value of the offset in both
    cases; the entry of every other name, the other file name of the
    sub-step among them, is as before. *)
Theorem offset_attributed_once acc substep :
  ready substep = true ->
  let offset := get_sync_offset substep in
  let before := sync_offsets acc in
  let after := sync_offsets (body acc substep) in
  after = PyDict.set (key substep) (Z.abs offset) before
  /\ (0 < offset ->
      key substep = screencast_name substep
      /\ PyDict.get (screencast_name substep) after = Some (Z.abs offset))
  /\ (offset <= 0 ->
      key substep = camera_recording_name substep
      /\ PyDict.get (camera_recording_name substep) after = Some (Z.abs offset))
  /\ (forall name, name <> key substep ->
      PyDict.get name after = PyDict.get name before).
Proof.
  intros Hr offset before after.
  assert (Hafter : after = PyDict.set (key substep) (Z.abs offset) before)
    by (apply body_sync_offsets; exact Hr).
  split; [exact Hafter|]. rewrite Hafter. repeat split.
  - unfold offset_key. fold offset.
    destruct (Z.ltb_spec 0 offset); [reflexivity | lia].
  - replace (screencast_name substep) with (key substep).
    + apply PyDictFacts.get_set_eq.
    + unfold offset_key. fold offset.
      destruct (Z.ltb_spec 0 offset); [reflexivity | lia].
  - unfold offset_key. fold offset.
    destruct (Z.ltb_spec 0 offset); [lia | reflexivity].
  - replace (camera_recording_name substep) with (key substep).
    + apply PyDictFacts.get_set_eq.
    + unfold offset_key. fold offset.
      destruct (Z.ltb_spec 0 offset); [lia | reflexivity].
  - intros name Hne. apply PyDictFacts.get_set_ne. congruence.
Qed.

(** The offsets returned for a step: one assignment for each sub-step
    that passes the check, in the order of the query. *)
Lemma fold_body_sync_offsets substeps : forall acc,
  sync_offsets (fold_left body substeps acc) =
  fold_left
    (fun offsets substep =>
       PyDict.set (key substep) (Z.abs (get_sync_offset substep)) offsets)
    (List.filter ready substeps) (sync_offsets acc).
Proof.
  induction substeps as [|s substeps IH]; intros acc; simpl; [reflexivity|].
  rewrite IH. destruct (ready s) eqn:Hr; simpl.
  - now rewrite body_sync_offsets.
  - now rewrite body_skips.
Qed.

Lemma keys_fold_set {A} (name : A -> string) (value : A -> Z) (items : list A) :
  forall d : PyDict.t Z,
  List.NoDup (PyDict.keys d ++ map name items) ->
  PyDict.keys
    (fold_left (fun offsets a => PyDict.set (name a) (value a) offsets) items d)
  = PyDict.keys d ++ map name items.
Proof.
  induction items as [|a items IH]; intros d Hnd; simpl.
  - now rewrite app_nil_r.
  - simpl in Hnd.
    assert (Hfresh : PyDict.get (name a) d = None).
    { apply PyDictFacts.get_None_keys. intros Hin.
      apply List.NoDup_remove_2 in Hnd. apply Hnd.
      apply in_or_app. now left. }
    rewrite IH; rewrite PyDictFacts.keys_set, Hfresh.
    + now rewrite <- app_assoc.
    + now rewrite <- app_assoc.
Qed.

(** When the names under which the offsets are stored differ from one
    sub-step to the next, the offsets of a step have exactly one key for
    each sub-step that passes the check. *)
Lemma step_offsets_keys (step_obj : db_row) :
  let valid := List.filter ready (substeps_of_step (id step_obj)) in
  List.NoDup (map key valid) ->
  PyDict.keys
    (sync_offsets
       (get_target_step_files isfile get_sync_offset get_diff_times
          substeps_of_step step_obj))
  = map key valid.
Proof.
  intros valid Hnd. unfold get_target_step_files.
  rewrite fold_body_sync_offsets. fold valid.
  now rewrite keys_fold_set.
Qed.
End WalkFacts.
End ExportingFacts.

(** ** The export entry point *)

Module ExportObjFacts.
Import ExportObj.
Section ExportObjFacts.
Variable ADOBE_PPRO_PATH : string.
Variable ADOBE_PPRO_CMD : string.
Variable module_dir : string.
Variable dirname : string -> string.
Variable path_join : string -> string -> string.
Variable isfile : string -> bool.
Variable escape_sep : string -> string.
Variable str_num : Z -> string.
Variable translate_non_alphanumerics : string -> string.
Variable process_with_name_exists : string -> bool.
Variable execute_command_sync : string -> Z -> InternalOperationResult.
Context {Obj : Type}.
Variable obj_os_path : Obj -> string.
Variable obj_name : Obj -> string.
Variable files_extractor : Obj -> target_files.

Abbreviation export :=
  (export_obj_to_prproj ADOBE_PPRO_PATH ADOBE_PPRO_CMD module_dir dirname
     path_join isfile escape_sep str_num translate_non_alphanumerics
     process_with_name_exists execute_command_sync
     obj_os_path obj_name files_extractor).

Abbreviation build_for db_object :=
  (build_ppro_command ADOBE_PPRO_PATH ADOBE_PPRO_CMD module_dir path_join
     isfile escape_sep str_num
     (obj_os_path db_object) (PRPROJ_TEMPLATES_PATH module_dir path_join)
     (screen_files (files_extractor db_object))
     (prof_files (files_extractor db_object))
     (marker_times (files_extractor db_object))
     (sync_offsets (files_extractor db_object))
     (translate_non_alphanumerics (obj_name db_object))).

Abbreviation required_file :=
  (path_join (dirname ADOBE_PPRO_PATH) PRPROJ_REQUIRED_FILE).

Ltac step_export :=
  unfold export_obj_to_prproj, Prog.bind, Prog.call, Prog.ret,
    Prog.try_except, Prog.lift, Prog.returned, Prog.calls; simpl.

(** C3.  When a process of Premiere Pro is found running, the export
    returns a fatal error; no command is built and none is given to the
    file system client for execution.  When the required file is in
    place, the only call made is the look-up of the process. *)
Theorem no_export_while_ppro_runs (db_object : Obj) (t : list export_call) :
  process_with_name_exists PPRO_WIN_PROCESS_NAME = true ->
  exists msg new,
    Prog.returned (export db_object tt t) = Return (mkResult FATAL_ERROR msg)
    /\ Prog.calls (export db_object tt t) = t ++ new
    /\ Forall quiet new
    /\ (isfile required_file = true ->
        msg = Text "Only one instance of PPro may exist. Please, close PPro and try again."
        /\ new = [ProcessWithNameExists PPRO_WIN_PROCESS_NAME]).
Proof.
  intros Hrun. step_export.
  destruct (isfile required_file) eqn:Hreq; simpl.
  - rewrite Hrun. simpl. do 2 eexists. repeat split.
    repeat constructor.
  - do 2 eexists. split; [reflexivity|]. split.
    + symmetry. apply app_nil_r.
    + split; [constructor | discriminate].
Qed.

(** C4.  When the extractor gives no screen cast file or no camera
    recording file, the export returns a fatal error and no command is
    given to the file system client for execution (nor is one built).
    When the two earlier checks pass, the calls made are the look-up of
    the process and the extraction. *)
Theorem no_export_of_empty_object (db_object : Obj) (t : list export_call) :
  screen_files (files_extractor db_object) = []
  \/ prof_files (files_extractor db_object) = [] ->
  exists msg new,
    Prog.returned (export db_object tt t) = Return (mkResult FATAL_ERROR msg)
    /\ Prog.calls (export db_object tt t) = t ++ new
    /\ Forall quiet new
    /\ (isfile required_file = true ->
        process_with_name_exists PPRO_WIN_PROCESS_NAME = false ->
        msg = Text "Object is empty or subitems are broken."
        /\ new = [ProcessWithNameExists PPRO_WIN_PROCESS_NAME; FilesExtractor]).
Proof.
  intros Hempty. step_export.
  destruct (isfile required_file) eqn:Hreq; simpl.
  - destruct (process_with_name_exists PPRO_WIN_PROCESS_NAME) eqn:Hrun; simpl.
    + do 2 eexists. repeat split; [repeat constructor | discriminate | discriminate].
    + assert (He : is_empty (screen_files (files_extractor db_object))
                   || is_empty (prof_files (files_extractor db_object)) = true).
      { destruct Hempty as [-> | ->]; simpl; [reflexivity | apply orb_true_r]. }
      rewrite He. simpl. rewrite <- app_assoc. simpl.
      do 2 eexists. repeat split. repeat constructor.
  - do 2 eexists. split; [reflexivity|]. split.
    + symmetry. apply app_nil_r.
    + split; [constructor | discriminate].
Qed.

(** C5.  When the construction of the command raises an exception, the
    export catches it and returns a fatal error that carries the
    exception: the outcome of the export is a returned result, not a
    raised exception, and no command is executed. *)
Theorem construction_failure_is_caught (db_object : Obj) (t : list export_call) (e : exn) :
  isfile required_file = true ->
  process_with_name_exists PPRO_WIN_PROCESS_NAME = false ->
  screen_files (files_extractor db_object) <> [] ->
  prof_files (files_extractor db_object) <> [] ->
  build_for db_object = Raise e ->
  Prog.returned (export db_object tt t) = Return (mkResult FATAL_ERROR (Caught e))
  /\ Prog.calls (export db_object tt t) =
     t ++ [ProcessWithNameExists PPRO_WIN_PROCESS_NAME; FilesExtractor; BuildPPROCommand].
Proof.
  intros Hreq Hrun Hs Hp Hraise. step_export.
  rewrite Hreq, Hrun. simpl.
  destruct (screen_files (files_extractor db_object)) eqn:Es; [contradiction|].
  destruct (prof_files (files_extractor db_object)) eqn:Ep; [contradiction|].
  simpl. rewrite Hraise. simpl.
  split; [reflexivity|]. now rewrite <- !app_assoc.
Qed.

(** The exceptions that [build_ppro_command] raises are the three of its
    own checks; the chain of builder calls, which includes the script
    once, raises none. *)
Lemma build_ppro_command_raises base_path templates_path screens profs
    markers offsets output_name e :
  build_ppro_command ADOBE_PPRO_PATH ADOBE_PPRO_CMD module_dir path_join
    isfile escape_sep str_num base_path templates_path screens profs
    markers offsets output_name = Raise e ->
  ADOBE_PPRO_PATH = EmptyString
  \/ isfile (path_join templates_path PRPROJ_TEMPLATE) = false
  \/ isfile (path_join templates_path PRPROJ_PRESET) = false.
Proof.
  unfold build_ppro_command.
  destruct ADOBE_PPRO_PATH; simpl; [now left|].
  destruct (isfile (path_join templates_path PRPROJ_TEMPLATE)); simpl; [|now auto].
  destruct (isfile (path_join templates_path PRPROJ_PRESET)); simpl; [|now auto].
  discriminate.
Qed.

(** Whatever the disk, the processes and the extractor are, the export
    returns a result: it raises nothing. *)
Lemma export_always_returns (db_object : Obj) (t : list export_call) :
  exists result, Prog.returned (export db_object tt t) = Return result.
Proof.
  step_export.
  destruct (isfile required_file); simpl; [|eauto].
  destruct (process_with_name_exists PPRO_WIN_PROCESS_NAME); simpl; [eauto|].
  destruct (is_empty (screen_files (files_extractor db_object))
            || is_empty (prof_files (files_extractor db_object))); simpl; [eauto|].
  destruct (build_for db_object) as [command|e]; simpl; [|eauto].
  destruct (decide (status (execute_command_sync command 1) = SUCCESS)); simpl; eauto.
Qed.
End ExportObjFacts.
End ExportObjFacts.

(** ** The camera recorder *)

Module CameraRecorderFacts.
Import CameraRecorder.
Section CameraRecorderFacts.
Variable FFMPEGcommand : string.
Variable path_join : string -> string -> string.
Variable poll : Popen -> option Z.
Variable execute_command : string -> InternalOperationResult * option Popen.
Variable send_quit_signal : option Popen -> InternalOperationResult.

Abbreviation active := (is_active poll).
Abbreviation start := (start_recording FFMPEGcommand path_join poll execute_command).
Abbreviation stop := (stop_recording poll send_quit_signal).

Ltac step_recorder :=
  unfold start_recording, stop_recording, process_pid, Prog.bind, Prog.get,
    Prog.put, Prog.call, Prog.ret, Prog.throw, Prog.returned, Prog.final,
    Prog.calls; simpl.

(** An active recorder holds a handle, and the poll of it gives nothing. *)
Lemma active_handle self :
  active self = true -> exists p, __process self = Some p /\ poll p = None.
Proof.
  unfold is_active. destruct (__process self) as [p|]; [|discriminate].
  destruct (poll p) eqn:E; [discriminate|]. eauto.
Qed.

(** C6.  On an active recorder [start_recording] returns the fatal error
    and leaves the recorder as it was: same handle, same last processed
    path and file; it launches nothing, its only call is to the logger. *)
Theorem start_rejected_while_active self path filename (t : list recorder_call) :
  active self = true ->
  Prog.returned (start path filename self t) =
    Return (mkResult FATAL_ERROR (Text "Camera is actually recording"))
  /\ Prog.final (start path filename self t) = self
  /\ exists new,
       Prog.calls (start path filename self t) = t ++ new
       /\ Forall (fun c => is_launch c = false) new.
Proof.
  intros Ha. destruct (active_handle self Ha) as (p & Hp & _).
  step_recorder. rewrite Ha, Hp. simpl.
  repeat split. eexists. split; [reflexivity|]. repeat constructor.
Qed.

(** C7.  On a recorder that is not active [stop_recording] returns a
    success; it sends no quit signal and schedules no kill, its only call
    is to the logger. *)
Theorem stop_idle_is_noop self (t : list recorder_call) :
  active self = false ->
  Prog.returned (stop self t) =
    Return (mkResult SUCCESS
              (Text "Camera isn't active: can't stop non existing FFMPEG process"))
  /\ exists template args,
       Prog.calls (stop self t) = t ++ [RecorderLog WARNING template args]
  /\ Forall (fun c => is_quit_signal c = false /\ is_scheduling c = false)
       [RecorderLog WARNING template args].
Proof.
  intros Ha. step_recorder. rewrite Ha. simpl.
  destruct (__process self); simpl;
    (split; [reflexivity|]; do 2 eexists; split; [reflexivity|]; repeat constructor).
Qed.

(** C8.  On an active recorder [stop_recording] schedules exactly one
    task: the kill of the process of the handle, by its identifier, after
    [KILL_DELAY], which is 3.  This holds whatever the sending of the quit
    signal answers. *)
Theorem stop_schedules_one_kill self (t : list recorder_call) :
  active self = true ->
  exists p new,
    __process self = Some p
    /\ Prog.calls (stop self t) = t ++ new
    /\ List.filter is_scheduling new = [RunWithDelay kill_process [pid p] 3].
Proof.
  intros Ha. destruct (active_handle self Ha) as (p & Hp & _).
  exists p. step_recorder. rewrite Ha, Hp. simpl.
  destruct (decide (status (send_quit_signal (Some p)) = SUCCESS)); simpl;
    rewrite <- !app_assoc; simpl; eexists; repeat split.
Qed.

(** C10.  When the recorder is not active and the launch does not
    succeed, [start_recording] returns the result of the launch, leaves
    the last processed path and file as they were, and stores the handle
    that the launch gave, whatever it is. *)
Theorem failed_start_keeps_last_processed self path filename
    (t : list recorder_call) result handle :
  active self = false ->
  execute_command (FFMPEGcommand +:+ path_join path filename) = (result, handle) ->
  status result <> SUCCESS ->
  Prog.returned (start path filename self t) = Return result
  /\ last_processed_path (Prog.final (start path filename self t))
     = last_processed_path self
  /\ last_processed_file (Prog.final (start path filename self t))
     = last_processed_file self
  /\ __process (Prog.final (start path filename self t)) = handle.
Proof.
  intros Ha Hexec Hfail. step_recorder. rewrite Ha, Hexec. simpl.
  destruct (decide (status result = SUCCESS)); [contradiction|].
  simpl. repeat split.
Qed.
End CameraRecorderFacts.
End CameraRecorderFacts.

(** ** The sample course *)

Module SampleFacts.
Import Sample.

(** The step of the design document: the offsets [+120] of A and [-50] of
    B give the entries [screenA: 120] and [profB: 50]; the sub-step whose
    file is missing gives nothing. *)
Example step_files_value :
  step_files =
  {| screen_files := ["screenA"; "screenB"];
     prof_files := ["profA"; "profB"];
     marker_times := [("screenA", [3; 14]); ("screenB", [])];
     sync_offsets := [("screenA", 120); ("profB", 50)] |}.
Proof. reflexivity. Qed.

(** The command built for that step ends with the include directive and
    the closing quote. *)
Example export_command_value :
  ExportObj.build_ppro_command ADOBE_PPRO_PATH ADOBE_PPRO_CMD module_dir
    path_join ppro_ready escape_sep str_num "/course/lesson/step"
    (ExportObj.PRPROJ_TEMPLATES_PATH module_dir path_join)
    (screen_files step_files) (prof_files step_files)
    (marker_times step_files) (sync_offsets step_files) "step"
  = Return
      (dquote +:+ "/ppro/premiere" +:+ dquote +:+ " /C es.processFile " +:+ dquote
       +:+ "app.openDocument('/studio/exporting/adobe_templates/template.prproj');"
       +:+ " const outputName = 'step';"
       +:+ " const basePath = '/course/lesson/step';"
       +:+ " const presetPath = '/studio/exporting/adobe_templates/ppro.sqpreset';"
       +:+ " const screenVideos = ['screenA', 'screenB'];"
       +:+ " const professorVideos = ['profA', 'profB'];"
       +:+ " var needSync = Boolean(true);"
       +:+ " var markerTimes = {'screenA': ['3', '14'], 'screenB': []};"
       +:+ " var syncOffsets = {'screenA': 120, 'profB': 50};"
       +:+ " //@include '/studio/exporting/adobe_scripts/create_deep_structured_project.jsx'"
       +:+ dquote).
Proof. vm_compute. reflexivity. Qed.
End SampleFacts.

(** ** The theorems at the sample course

    Each theorem above that has hypotheses is applied here to the sample,
    where its hypotheses hold by computation. *)

Module Witnesses.
Import Sample.

Lemma offset_attributed_once_witness :
  Exporting.substep_ready isfile substepB = true
  /\ sync_offsets
       (Exporting.step_loop_body isfile get_sync_offset get_diff_times
          Exporting.no_files substepB)
     = PyDict.set (Exporting.offset_key get_sync_offset substepB)
         (Z.abs (get_sync_offset substepB)) (sync_offsets Exporting.no_files).
Proof.
  split; [reflexivity|].
  apply (ExportingFacts.offset_attributed_once isfile get_sync_offset
           get_diff_times Exporting.no_files substepB).
  reflexivity.
Defined.

Lemma include_directive_last_witness :
  Builder.plain [Builder.StringConst (num:=Z) "outputName" "step"]
  /\ Builder.plain [Builder.BoolValue (num:=Z) "needSync" true]
  /\ exists b,
       Builder.chain str_num
         ([Builder.StringConst "outputName" "step"]
          ++ Builder.ScriptIncluding "assemble.jsx"
          :: [Builder.BoolValue "needSync" true])
         (Builder.init "ppro") = Return b
       /\ fst (Builder.build b) =
          ("ppro" +:+ " " +:+ dquote)
          +:+ (Builder.appended_texts str_num [Builder.StringConst "outputName" "step"]
               +:+ Builder.appended_texts str_num [Builder.BoolValue "needSync" true])
          +:+ Builder.include_text "assemble.jsx" +:+ dquote.
Proof.
  split; [repeat constructor|]. split; [repeat constructor|].
  apply (BuilderFacts.include_directive_last str_num "ppro"
           [Builder.StringConst "outputName" "step"]
           [Builder.BoolValue "needSync" true] "assemble.jsx");
    repeat constructor.
Defined.

Lemma second_script_including_raises_witness :
  Builder.append_script_including "a.jsx" (Builder.init "ppro")
    = Return {| Builder.base_command := "ppro" +:+ " " +:+ dquote;
                Builder.script_to_include := Builder.include_text "a.jsx" |}
  /\ Builder.plain [Builder.BoolValue (num:=Z) "needSync" true]
  /\ Builder.chain str_num [Builder.BoolValue "needSync" true]
       {| Builder.base_command := "ppro" +:+ " " +:+ dquote;
          Builder.script_to_include := Builder.include_text "a.jsx" |}
     = Return {| Builder.base_command :=
                   ("ppro" +:+ " " +:+ dquote)
                   +:+ Builder.bool_value_text "needSync" true;
                 Builder.script_to_include := Builder.include_text "a.jsx" |}
  /\ Builder.append_script_including "a.jsx"
       {| Builder.base_command :=
            ("ppro" +:+ " " +:+ dquote) +:+ Builder.bool_value_text "needSync" true;
          Builder.script_to_include := Builder.include_text "a.jsx" |}
     = Raise Builder.ALREADY_INCLUDING.
Proof.
  split; [reflexivity|]. split; [repeat constructor|]. split; [reflexivity|].
  eapply (BuilderFacts.second_script_including_raises str_num
            (Builder.init "ppro") "a.jsx" _
            [Builder.BoolValue "needSync" true] _ "a.jsx");
    [reflexivity | repeat constructor | reflexivity].
Defined.

Lemma no_export_while_ppro_runs_witness :
  ppro_running PPRO_WIN_PROCESS_NAME = true
  /\ exists msg new,
       Prog.returned (export ppro_ready ppro_running extractor_of_step step tt [])
         = Return (mkResult FATAL_ERROR msg)
       /\ Prog.calls (export ppro_ready ppro_running extractor_of_step step tt [])
          = [] ++ new
       /\ Forall ExportObj.quiet new
       /\ (ppro_ready (path_join (dirname ADOBE_PPRO_PATH) PRPROJ_REQUIRED_FILE) = true ->
           msg = Text "Only one instance of PPro may exist. Please, close PPro and try again."
           /\ new = [ProcessWithNameExists PPRO_WIN_PROCESS_NAME]).
Proof.
  split; [reflexivity|].
  apply (ExportObjFacts.no_export_while_ppro_runs ADOBE_PPRO_PATH ADOBE_PPRO_CMD
           module_dir dirname path_join ppro_ready escape_sep str_num
           translate_non_alphanumerics ppro_running execute_command_sync
           row_os_path (fun _ => "step") extractor_of_step step []).
  reflexivity.
Defined.

Lemma no_export_of_empty_object_witness :
  (screen_files (extractor_of_nothing step) = []
   \/ prof_files (extractor_of_nothing step) = [])
  /\ exists msg new,
       Prog.returned (export ppro_ready ppro_not_running extractor_of_nothing step tt [])
         = Return (mkResult FATAL_ERROR msg)
       /\ Prog.calls (export ppro_ready ppro_not_running extractor_of_nothing step tt [])
          = [] ++ new
       /\ Forall ExportObj.quiet new
       /\ (ppro_ready (path_join (dirname ADOBE_PPRO_PATH) PRPROJ_REQUIRED_FILE) = true ->
           ppro_not_running PPRO_WIN_PROCESS_NAME = false ->
           msg = Text "Object is empty or subitems are broken."
           /\ new = [ProcessWithNameExists PPRO_WIN_PROCESS_NAME; FilesExtractor]).
Proof.
  split; [left; reflexivity|].
  apply (ExportObjFacts.no_export_of_empty_object ADOBE_PPRO_PATH ADOBE_PPRO_CMD
           module_dir dirname path_join ppro_ready escape_sep str_num
           translate_non_alphanumerics ppro_not_running execute_command_sync
           row_os_path (fun _ => "step") extractor_of_nothing step []).
  left; reflexivity.
Defined.

Lemma construction_failure_is_caught_witness :
  let missing_preset :=
    Exception (".sqpreset sequence template file is missing. "
               +:+ "Please, put .sqpreset at "
               +:+ "/studio/exporting/adobe_templates/ppro.sqpreset") in
  ppro_without_preset (path_join (dirname ADOBE_PPRO_PATH) PRPROJ_REQUIRED_FILE) = true
  /\ ppro_not_running PPRO_WIN_PROCESS_NAME = false
  /\ screen_files (extractor_of_step step) <> []
  /\ prof_files (extractor_of_step step) <> []
  /\ Prog.returned
       (export ppro_without_preset ppro_not_running extractor_of_step step tt [])
     = Return (mkResult FATAL_ERROR (Caught missing_preset))
  /\ Prog.calls
       (export ppro_without_preset ppro_not_running extractor_of_step step tt [])
     = [] ++ [ProcessWithNameExists PPRO_WIN_PROCESS_NAME; FilesExtractor;
              BuildPPROCommand].
Proof.
  intros missing_preset.
  split; [reflexivity|]. split; [reflexivity|].
  split; [discriminate|]. split; [discriminate|].
  apply (ExportObjFacts.construction_failure_is_caught ADOBE_PPRO_PATH
           ADOBE_PPRO_CMD module_dir dirname path_join ppro_without_preset
           escape_sep str_num translate_non_alphanumerics ppro_not_running
           execute_command_sync row_os_path (fun _ => "step")
           extractor_of_step step [] missing_preset);
    [reflexivity | reflexivity | discriminate | discriminate | reflexivity].
Defined.

Lemma start_rejected_while_active_witness :
  CameraRecorder.is_active poll recording = true
  /\ Prog.returned
       (CameraRecorder.start_recording FFMPEGcommand path_join poll failing_launch
          "/course/lesson/step" "profB" recording [])
     = Return (mkResult FATAL_ERROR (Text "Camera is actually recording"))
  /\ Prog.final
       (CameraRecorder.start_recording FFMPEGcommand path_join poll failing_launch
          "/course/lesson/step" "profB" recording [])
     = recording
  /\ exists new,
       Prog.calls
         (CameraRecorder.start_recording FFMPEGcommand path_join poll failing_launch
            "/course/lesson/step" "profB" recording [])
       = [] ++ new
       /\ Forall (fun c => CameraRecorder.is_launch c = false) new.
Proof.
  split; [reflexivity|].
  apply (CameraRecorderFacts.start_rejected_while_active FFMPEGcommand path_join
           poll failing_launch recording "/course/lesson/step" "profB" []).
  reflexivity.
Defined.

Lemma stop_idle_is_noop_witness :
  CameraRecorder.is_active poll idle = false
  /\ Prog.returned (CameraRecorder.stop_recording poll failing_quit idle [])
     = Return (mkResult SUCCESS
                 (Text "Camera isn't active: can't stop non existing FFMPEG process"))
  /\ exists template args,
       Prog.calls (CameraRecorder.stop_recording poll failing_quit idle [])
       = [] ++ [RecorderLog WARNING template args]
       /\ Forall (fun c => CameraRecorder.is_quit_signal c = false
                           /\ CameraRecorder.is_scheduling c = false)
            [RecorderLog WARNING template args].
Proof.
  split; [reflexivity|].
  apply (CameraRecorderFacts.stop_idle_is_noop poll failing_quit idle []).
  reflexivity.
Defined.

Lemma stop_schedules_one_kill_witness :
  CameraRecorder.is_active poll recording = true
  /\ exists p new,
       __process recording = Some p
       /\ Prog.calls (CameraRecorder.stop_recording poll failing_quit recording [])
          = [] ++ new
       /\ List.filter CameraRecorder.is_scheduling new
          = [RunWithDelay kill_process [pid p] 3].
Proof.
  split; [reflexivity|].
  apply (CameraRecorderFacts.stop_schedules_one_kill poll failing_quit recording []).
  reflexivity.
Defined.

Lemma failed_start_keeps_last_processed_witness :
  let attempt :=
    CameraRecorder.start_recording FFMPEGcommand path_join poll failing_launch
      "/course/lesson/step" "profB" idle [] in
  CameraRecorder.is_active poll idle = false
  /\ failing_launch (FFMPEGcommand +:+ path_join "/course/lesson/step" "profB")
     = (mkResult FATAL_ERROR (Text "Cannot exec"), Some {| pid := 1 |})
  /\ status (mkResult FATAL_ERROR (Text "Cannot exec")) <> SUCCESS
  /\ Prog.returned attempt = Return (mkResult FATAL_ERROR (Text "Cannot exec"))
  /\ last_processed_path (Prog.final attempt) = last_processed_path idle
  /\ last_processed_file (Prog.final attempt) = last_processed_file idle
  /\ __process (Prog.final attempt) = Some {| pid := 1 |}.
Proof.
  intros attempt.
  split; [reflexivity|]. split; [reflexivity|]. split; [discriminate|].
  apply (CameraRecorderFacts.failed_start_keeps_last_processed FFMPEGcommand
           path_join poll failing_launch idle "/course/lesson/step" "profB" []
           (mkResult FATAL_ERROR (Text "Cannot exec")) (Some {| pid := 1 |}));
    [reflexivity | reflexivity | discriminate].
Defined.
End Witnesses.

(** * Further properties of the code *)

(** ** The command builder, beyond one inclusion *)

Module BuilderLaws.
Import Builder Derived.
Section BuilderLaws.
Context {num : Type} (str_num : num -> string).
Implicit Types (b : PPROCommandBuilder) (c : @append_call num)
  (calls : list (@append_call num)).

Lemma includes_cons c calls :
  includes (c :: calls) = ((if is_including c then 1 else 0) + includes calls)%nat.
Proof. unfold includes. simpl. now destruct (is_including c). Qed.

(** A call that returns adds its text to [base_command]. *)
Lemma apply_call_base c b b' :
  apply_call str_num c b = Return b' ->
  base_command b' = base_command b +:+ appended_text str_num c.
Proof.
  destruct c; simpl; try (intros [= <-]; reflexivity).
  unfold append_script_including.
  destruct (truthy (script_to_include b)); [discriminate|].
  intros [= <-]. simpl. now rewrite append_empty_r.
Qed.

(** With a script already to include, a chain returns exactly when it
    has no inclusion. *)
Lemma chain_pending calls : forall b,
  truthy (script_to_include b) = true ->
  chain str_num calls b =
  if Nat.eqb (includes calls) 0
  then Return (extend (appended_texts str_num calls) b)
  else Raise ALREADY_INCLUDING.
Proof.
  induction calls as [|c calls IH]; intros b Hp.
  - simpl. unfold extend. rewrite append_empty_r. now destruct b.
  - rewrite includes_cons. destruct c; simpl;
      try (rewrite IH by exact Hp; destruct (Nat.eqb (includes calls) 0);
           [unfold extend; simpl; now rewrite append_assoc | reflexivity]).
    unfold append_script_including. now rewrite Hp.
Qed.

Lemma chain_fresh calls : forall b,
  truthy (script_to_include b) = false ->
  chain str_num calls b = Raise ALREADY_INCLUDING <-> (2 <= includes calls)%nat.
Proof.
  induction calls as [|c calls IH]; intros b Hf.
  - simpl. unfold includes. simpl. split; [discriminate | lia].
  - rewrite includes_cons. destruct c; simpl;
      try (rewrite IH by exact Hf; reflexivity).
    unfold append_script_including. rewrite Hf.
    rewrite chain_pending by reflexivity.
    destruct (includes calls) as [|n]; simpl; split;
      first [discriminate | lia | reflexivity].
Qed.

(** X1.  A chain of append calls on a new builder raises exactly when it
    has two or more [append_script_including]; nothing else makes a chain
    fail. *)
Theorem chain_raises_iff (base : string) calls :
  (exists e, chain str_num calls (init base) = Raise e) <-> (2 <= includes calls)%nat.
Proof.
  rewrite <- (chain_fresh calls (init base)) by reflexivity.
  split; [|eauto]. intros [e He].
  destruct (Nat.le_gt_cases 2 (includes calls)) as [H2|H1].
  - now apply (chain_fresh calls (init base)).
  - exfalso.
    assert (Hno : chain str_num calls (init base) <> Raise ALREADY_INCLUDING).
    { rewrite (chain_fresh calls (init base)) by reflexivity. lia. }
    clear H1. revert He Hno. generalize (init base).
    induction calls as [|c calls IH]; intros b He Hno; simpl in *; [discriminate|].
    destruct c; simpl in *; try (eapply IH; eassumption).
    unfold append_script_including in *.
    destruct (truthy (script_to_include b)); [now injection He as <- |].
    eapply IH; eassumption.
Qed.

(** X2.  The builder only appends: whatever the calls of a chain that
    returns, the command of the builder it returns is the former command
    followed by the texts of the calls, in their order. *)
Theorem chain_append_only calls : forall b b',
  chain str_num calls b = Return b' ->
  base_command b' = base_command b +:+ appended_texts str_num calls.
Proof.
  induction calls as [|c calls IH]; intros b b' H; simpl in *.
  - injection H as <-. now rewrite append_empty_r.
  - destruct (apply_call str_num c b) as [b1|] eqn:E; [|discriminate].
    rewrite (IH _ _ H), (apply_call_base _ _ _ E). apply append_assoc.
Qed.

Lemma append_same_empty (a b : string) : a +:+ b = a -> b = EmptyString.
Proof.
  induction a as [|x a IH]; simpl; [auto|]. intros [= H]. auto.
Qed.

Lemma truthy_false (s : string) : truthy s = false <-> s = EmptyString.
Proof. destruct s; simpl; split; congruence. Qed.

(** X3.  [build()] leaves the builder as it was exactly when no script is
    to be included; with one, it adds the directive to the command of the
    builder itself. *)
Theorem build_keeps_builder_iff b :
  snd (build b) = b <-> script_to_include b = EmptyString.
Proof.
  unfold build. simpl. split.
  - destruct (truthy (script_to_include b)) eqn:E.
    + intros H. apply (f_equal base_command) in H. simpl in H.
      now apply append_same_empty in H.
    + intros _. now apply truthy_false.
  - intros H. now rewrite H.
Qed.

(** X4.  After a [build()] with a script to include, further plain calls
    put their texts after the directive, and the next [build()] adds the
    directive once more: the second text is the command, the directive,
    the texts of the calls, the directive and the closing quote. *)
Theorem build_again_repeats_directive calls b :
  truthy (script_to_include b) = true ->
  plain calls ->
  build_chain_build str_num calls b =
  Return (base_command b +:+ script_to_include b
          +:+ appended_texts str_num calls
          +:+ script_to_include b +:+ dquote).
Proof.
  intros Hp Hplain. unfold build_chain_build, build. simpl. rewrite Hp.
  rewrite (BuilderFacts.chain_plain str_num calls _ Hplain). simpl.
  rewrite Hp. simpl. now rewrite !append_assoc.
Qed.

(** X5.  The value of a string constant is put between the quotes as it
    is: a value that holds a closing quote followed by a declaration
    leaves the builder exactly as two declarations would. *)
Theorem string_const_not_escaped (name value name' value' : string) b :
  chain str_num
    [StringConst name (value +:+ "'; const " +:+ name' +:+ " = '" +:+ value')] b
  = chain str_num [StringConst name value; StringConst name' value'] b.
Proof.
  simpl. unfold append_string_const, extend, string_const_text. simpl.
  do 2 f_equal. repeat (progress (rewrite ?append_assoc; simpl)). reflexivity.
Qed.
End BuilderLaws.
End BuilderLaws.

(** ** The walks over a step, a lesson and a course *)

Module WalkLaws.
Import Exporting Derived.

Section DictLaws.
Context {V : Type}.
Implicit Types (d : PyDict.t V) (k : string) (v : V).

Lemma in_keys_set k k' v d :
  In k' (PyDict.keys (PyDict.set k v d)) <-> k' = k \/ In k' (PyDict.keys d).
Proof.
  rewrite PyDictFacts.keys_set. destruct (PyDict.get k d) eqn:E.
  - split; [tauto|]. intros [->|H]; [|exact H].
    destruct (in_dec string_dec k (PyDict.keys d)) as [Hin|Hout]; [exact Hin|].
    apply PyDictFacts.get_None_keys in Hout. congruence.
  - rewrite in_app_iff. simpl. intuition congruence.
Qed.

Lemma Forall_set (P : string * V -> Prop) k v d :
  (forall k1 k2, P (k1, v) -> P (k2, v)) ->
  P (k, v) -> Forall P d -> Forall P (PyDict.set k v d).
Proof.
  intros Hkey Hv. induction 1 as [|[k0 v0] d H0 Hd IH]; simpl.
  - now constructor.
  - destruct (String.eqb k0 k); constructor; eauto.
Qed.

Lemma Forall_update (P : string * V -> Prop) d other :
  (forall k1 k2 v, P (k1, v) -> P (k2, v)) ->
  Forall P d -> Forall P other -> Forall P (PyDict.update d other).
Proof.
  intros Hkey Hd Ho. unfold PyDict.update. revert d Hd.
  induction Ho as [|[k v] other Hkv Ho IH]; intros d Hd; simpl; [exact Hd|].
  apply IH. apply Forall_set; eauto.
Qed.
End DictLaws.

Section StepLaws.
Variable isfile : string -> bool.
Variable get_sync_offset : SubStep -> Z.
Variable get_diff_times : string -> list Z.
Variable substeps_of_step : Z -> list SubStep.

Abbreviation ready := (substep_ready isfile).
Abbreviation body := (step_loop_body isfile get_sync_offset get_diff_times).
Abbreviation key := (offset_key get_sync_offset).
Abbreviation step_files :=
  (get_target_step_files isfile get_sync_offset get_diff_times substeps_of_step).

(** The two lists after the loop over some sub-steps. *)
Lemma fold_body_lists substeps : forall acc,
  screen_files (fold_left body substeps acc)
  = screen_files acc ++ map screencast_name (List.filter ready substeps)
  /\ prof_files (fold_left body substeps acc)
     = prof_files acc ++ map camera_recording_name (List.filter ready substeps).
Proof.
  induction substeps as [|s substeps IH]; intros acc; simpl.
  - now rewrite !app_nil_r.
  - destruct (IH (body acc s)) as [-> ->].
    unfold step_loop_body. destruct (ready s); simpl.
    + now rewrite <- !app_assoc.
    + auto.
Qed.

(** X6.  The two lists returned for a step are the screen cast names and
    the camera recording names of the sub-steps that pass the check, in
    the order of the query: the lists are parallel, and a sub-step that
    fails the check appears in neither. *)
Theorem step_lists_of_kept (step_obj : db_row) :
  screen_files (step_files step_obj)
  = map screencast_name (kept isfile substeps_of_step step_obj)
  /\ prof_files (step_files step_obj)
     = map camera_recording_name (kept isfile substeps_of_step step_obj).
Proof. apply (fold_body_lists _ no_files). Qed.

Lemma fold_body_marker_keys substeps : forall acc name,
  In name (PyDict.keys (marker_times (fold_left body substeps acc)))
  <-> In name (PyDict.keys (marker_times acc))
      \/ In name (map screencast_name (List.filter ready substeps)).
Proof.
  induction substeps as [|s substeps IH]; intros acc name; simpl; [tauto|].
  rewrite IH. unfold step_loop_body. destruct (ready s); simpl; [|tauto].
  rewrite in_keys_set. intuition congruence.
Qed.

(** X7.  The marker times returned for a step have an entry for each
    screen cast of the returned list, and for nothing else. *)
Theorem step_marker_times_keys (step_obj : db_row) (name : string) :
  In name (PyDict.keys (marker_times (step_files step_obj)))
  <-> In name (screen_files (step_files step_obj)).
Proof.
  unfold get_target_step_files.
  destruct (fold_body_lists (substeps_of_step (id step_obj)) no_files) as [-> _].
  rewrite fold_body_marker_keys. simpl. tauto.
Qed.

Lemma fold_body_nonnegative substeps : forall acc,
  Forall nonnegative (sync_offsets acc) ->
  Forall nonnegative (sync_offsets (fold_left body substeps acc)).
Proof.
  induction substeps as [|s substeps IH]; intros acc Hacc; simpl; [exact Hacc|].
  apply IH. destruct (ready s) eqn:Hr.
  - rewrite ExportingFacts.body_sync_offsets by exact Hr.
    apply Forall_set; auto. unfold nonnegative. simpl. lia.
  - now rewrite ExportingFacts.body_skips.
Qed.

(** X8.  No offset returned for a step is negative: what is stored is an
    absolute value, under the one name or the other. *)
Theorem step_offsets_nonnegative (step_obj : db_row) :
  Forall nonnegative (sync_offsets (step_files step_obj)).
Proof. apply fold_body_nonnegative. constructor. Qed.

Lemma fold_body_offset_keys substeps : forall acc name,
  In name (PyDict.keys (sync_offsets (fold_left body substeps acc))) ->
  In name (PyDict.keys (sync_offsets acc))
  \/ In name (map key (List.filter ready substeps)).
Proof.
  induction substeps as [|s substeps IH]; intros acc name H; simpl in *; [tauto|].
  apply IH in H. destruct (ready s) eqn:Hr; simpl.
  - rewrite ExportingFacts.body_sync_offsets in H by exact Hr.
    rewrite in_keys_set in H. intuition congruence.
  - rewrite ExportingFacts.body_skips in H by exact Hr. exact H.
Qed.

(** X9.  Every name that has an offset in the result of a step is one of
    the returned screen cast names or camera recording names. *)
Theorem step_offset_keys_are_files (step_obj : db_row) (name : string) :
  In name (PyDict.keys (sync_offsets (step_files step_obj))) ->
  In name (screen_files (step_files step_obj))
  \/ In name (prof_files (step_files step_obj)).
Proof.
  unfold get_target_step_files. intros H.
  destruct (fold_body_lists (substeps_of_step (id step_obj)) no_files) as [-> ->].
  apply fold_body_offset_keys in H. simpl in *. destruct H as [[]|H].
  apply in_map_iff in H as (s & <- & Hs).
  unfold offset_key. destruct (0 <? get_sync_offset s).
  - left. now apply in_map.
  - right. now apply in_map.
Qed.

Lemma fold_body_marker_times substeps : forall acc,
  marker_times (fold_left body substeps acc) =
  fold_left
    (fun times substep =>
       PyDict.set (screencast_name substep)
         (get_diff_times (os_screencast_path substep)) times)
    (List.filter ready substeps) (marker_times acc).
Proof.
  induction substeps as [|s substeps IH]; intros acc; simpl; [reflexivity|].
  rewrite IH. unfold step_loop_body. now destruct (ready s).
Qed.

(** In a fold of assignments under names that differ from one item to the
    next, each item is found under its name with its value. *)
Lemma get_fold_set {A V} (name : A -> string) (value : A -> V) (items : list A) :
  forall (d : PyDict.t V) (a : A),
  List.NoDup (map name items) -> In a items ->
  PyDict.get (name a)
    (fold_left (fun d x => PyDict.set (name x) (value x) d) items d)
  = Some (value a).
Proof.
  assert (Hkeep : forall (l : list A) (d : PyDict.t V) (k : string),
             ~ In k (map name l) ->
             PyDict.get k (fold_left (fun d x => PyDict.set (name x) (value x) d) l d)
             = PyDict.get k d).
  { induction l as [|x l IH]; intros d k Hk; simpl; [reflexivity|].
    rewrite IH by (simpl in Hk; tauto).
    apply PyDictFacts.get_set_ne. simpl in Hk. intros E. apply Hk. now left. }
  induction items as [|x items IH]; intros d a Hnd Hin; [destruct Hin|].
  simpl in *. apply List.NoDup_cons_iff in Hnd as [Hx Hnd].
  destruct Hin as [->|Hin].
  - rewrite Hkeep by exact Hx. apply PyDictFacts.get_set_eq.
  - now apply IH.
Qed.

(** X10.  When the screen casts of the kept sub-steps of a step have
    names that differ, the marker times returned under the name of each
    are the frame change times of its own file. *)
Theorem step_marker_times_values (step_obj : db_row) (substep : SubStep) :
  List.NoDup (map screencast_name (kept isfile substeps_of_step step_obj)) ->
  In substep (kept isfile substeps_of_step step_obj) ->
  PyDict.get (screencast_name substep) (marker_times (step_files step_obj))
  = Some (get_diff_times (os_screencast_path substep)).
Proof.
  intros Hnd Hin. unfold get_target_step_files.
  rewrite fold_body_marker_times.
  now apply (get_fold_set screencast_name
               (fun s => get_diff_times (os_screencast_path s))).
Qed.

(** X11.  When the names under which the offsets are stored differ from
    one kept sub-step to the next, the absolute value of the offset of
    each kept sub-step is found under the name chosen by its sign. *)
Theorem step_offsets_values (step_obj : db_row) (substep : SubStep) :
  List.NoDup (map key (kept isfile substeps_of_step step_obj)) ->
  In substep (kept isfile substeps_of_step step_obj) ->
  PyDict.get (key substep) (sync_offsets (step_files step_obj))
  = Some (Z.abs (get_sync_offset substep)).
Proof.
  intros Hnd Hin. unfold get_target_step_files.
  rewrite ExportingFacts.fold_body_sync_offsets.
  now apply (get_fold_set key (fun s => Z.abs (get_sync_offset s))).
Qed.

Lemma balanced_step (step_obj : db_row) : balanced (step_files step_obj).
Proof.
  unfold balanced, get_target_step_files.
  destruct (fold_body_lists (substeps_of_step (id step_obj)) no_files) as [-> ->].
  simpl. now rewrite !length_map.
Qed.

End StepLaws.

Section TreeLaws.
Variable isfile : string -> bool.
Variable isdir : string -> bool.
Variable get_sync_offset : SubStep -> Z.
Variable get_diff_times : string -> list Z.
Variable substeps_of_step : Z -> list SubStep.
Variable steps_of_lesson : Z -> list db_row.
Variable lessons_of_course : Z -> list db_row.

Abbreviation files_of_step :=
  (get_target_step_files isfile get_sync_offset get_diff_times substeps_of_step).
Abbreviation lesson_files :=
  (get_target_lesson_files isfile isdir get_sync_offset get_diff_times
     substeps_of_step steps_of_lesson).
Abbreviation course_files :=
  (get_target_course_files isfile isdir get_sync_offset get_diff_times
     substeps_of_step steps_of_lesson lessons_of_course).

(** A property of the four values that the empty result has and that
    [merge_files] keeps holds after a fold of merges. *)
Lemma fold_merge_invariant {A} (P : target_files -> Prop) (part : A -> target_files)
    (items : list A) :
  (forall acc p, P acc -> P p -> P (merge_files acc p)) ->
  (forall a, P (part a)) ->
  forall acc, P acc ->
  P (fold_left (fun acc a => merge_files acc (part a)) items acc).
Proof.
  intros Hmerge Hpart. induction items as [|a items IH]; intros acc Hacc; simpl; auto.
Qed.

Lemma balanced_merge acc p : balanced acc -> balanced p -> balanced (merge_files acc p).
Proof. unfold balanced. simpl. rewrite !length_app. lia. Qed.

(** X12.  The result of a course has as many screen casts as camera
    recordings, and so has the result of each of its lessons. *)
Theorem course_lists_balanced (course_obj : db_row) :
  balanced (course_files course_obj)
  /\ Forall (fun lesson => balanced (lesson_files lesson))
       (lessons_of_course (id course_obj)).
Proof.
  assert (Hlesson : forall lesson, balanced (lesson_files lesson)).
  { intros lesson. unfold get_target_lesson_files.
    destruct (isdir (row_os_path lesson)); [|reflexivity].
    apply fold_merge_invariant;
      [apply balanced_merge | apply balanced_step | reflexivity]. }
  split.
  - unfold get_target_course_files.
    destruct (isdir (row_os_path course_obj)); [|reflexivity].
    apply fold_merge_invariant;
      [apply balanced_merge | exact Hlesson | reflexivity].
  - apply Forall_forall. auto.
Qed.

Lemma nonnegative_merge acc p :
  Forall nonnegative (sync_offsets acc) -> Forall nonnegative (sync_offsets p) ->
  Forall nonnegative (sync_offsets (merge_files acc p)).
Proof. simpl. apply Forall_update. auto. Qed.

(** X13.  No offset in the result of a lesson or of a course is
    negative. *)
Theorem course_offsets_nonnegative (course_obj : db_row) :
  Forall nonnegative (sync_offsets (course_files course_obj))
  /\ Forall (fun lesson => Forall nonnegative (sync_offsets (lesson_files lesson)))
       (lessons_of_course (id course_obj)).
Proof.
  assert (Hlesson : forall lesson,
             Forall nonnegative (sync_offsets (lesson_files lesson))).
  { intros lesson. unfold get_target_lesson_files.
    destruct (isdir (row_os_path lesson)); [|constructor].
    apply (fold_merge_invariant
             (fun files => Forall nonnegative (sync_offsets files)));
      [apply nonnegative_merge | | constructor].
    intros step_obj. apply fold_body_nonnegative. constructor. }
  split.
  - unfold get_target_course_files.
    destruct (isdir (row_os_path course_obj)); [|constructor].
    apply (fold_merge_invariant
             (fun files => Forall nonnegative (sync_offsets files)));
      [apply nonnegative_merge | exact Hlesson | constructor].
  - apply Forall_forall. auto.
Qed.

Lemma fold_merge_lists {A} (part : A -> target_files) (items : list A) :
  forall acc,
  screen_files (fold_left (fun acc a => merge_files acc (part a)) items acc)
  = screen_files acc ++ concat (map (fun a => screen_files (part a)) items)
  /\ prof_files (fold_left (fun acc a => merge_files acc (part a)) items acc)
     = prof_files acc ++ concat (map (fun a => prof_files (part a)) items).
Proof.
  induction items as [|a items IH]; intros acc; simpl.
  - now rewrite !app_nil_r.
  - destruct (IH (merge_files acc (part a))) as [-> ->]. simpl.
    now rewrite <- !app_assoc.
Qed.

(** X14.  When the directory of a lesson is there, the lists returned
    for the lesson are the lists of its steps one after the other, in the
    order of the query. *)
Theorem lesson_lists_concat (lesson_obj : db_row) :
  isdir (row_os_path lesson_obj) = true ->
  screen_files (lesson_files lesson_obj)
  = concat (map (fun step_obj => screen_files (files_of_step step_obj))
              (steps_of_lesson (id lesson_obj)))
  /\ prof_files (lesson_files lesson_obj)
     = concat (map (fun step_obj => prof_files (files_of_step step_obj))
                 (steps_of_lesson (id lesson_obj))).
Proof.
  intros Hdir. unfold get_target_lesson_files. rewrite Hdir.
  apply (fold_merge_lists files_of_step _ no_files).
Qed.

(** X15.  A course none of whose lessons has its directory gives the
    four empty values, whatever the steps of the lessons hold and whether
    the directory of the course is there or not. *)
Theorem course_of_absent_lessons (course_obj : db_row) :
  Forall (fun lesson => isdir (row_os_path lesson) = false)
    (lessons_of_course (id course_obj)) ->
  course_files course_obj = no_files.
Proof.
  intros Habsent. unfold get_target_course_files.
  destruct (isdir (row_os_path course_obj)); [|reflexivity].
  induction Habsent as [|lesson lessons Hl _ IH]; simpl; [reflexivity|].
  unfold get_target_lesson_files at 2. rewrite Hl. exact IH.
Qed.
End TreeLaws.
End WalkLaws.

(** ** The export entry point, on all its paths *)

Module ExportLaws.
Import ExportObj.
Section ExportLaws.
Variable ADOBE_PPRO_PATH : string.
Variable ADOBE_PPRO_CMD : string.
Variable module_dir : string.
Variable dirname : string -> string.
Variable path_join : string -> string -> string.
Variable isfile : string -> bool.
Variable escape_sep : string -> string.
Variable str_num : Z -> string.
Variable translate_non_alphanumerics : string -> string.
Variable process_with_name_exists : string -> bool.
Variable execute_command_sync : string -> Z -> InternalOperationResult.
Context {Obj : Type}.
Variable obj_os_path : Obj -> string.
Variable obj_name : Obj -> string.
Variable files_extractor : Obj -> target_files.

Abbreviation build_command :=
  (build_ppro_command ADOBE_PPRO_PATH ADOBE_PPRO_CMD module_dir path_join
     isfile escape_sep str_num).

Abbreviation export :=
  (export_obj_to_prproj ADOBE_PPRO_PATH ADOBE_PPRO_CMD module_dir dirname
     path_join isfile escape_sep str_num translate_non_alphanumerics
     process_with_name_exists execute_command_sync
     obj_os_path obj_name files_extractor).

Abbreviation build_for db_object :=
  (build_command
     (obj_os_path db_object) (PRPROJ_TEMPLATES_PATH module_dir path_join)
     (screen_files (files_extractor db_object))
     (prof_files (files_extractor db_object))
     (marker_times (files_extractor db_object))
     (sync_offsets (files_extractor db_object))
     (translate_non_alphanumerics (obj_name db_object))).

Abbreviation required_file :=
  (path_join (dirname ADOBE_PPRO_PATH) PRPROJ_REQUIRED_FILE).

Ltac step_export :=
  unfold export_obj_to_prproj, Prog.bind, Prog.call, Prog.ret,
    Prog.try_except, Prog.lift, Prog.returned, Prog.calls; simpl.

(** X16.  [build_ppro_command] returns a command exactly when the path
    of Premiere Pro is set and both the project template and the preset
    are files of the templates directory; otherwise it raises.  The chain
    of builder calls is never what fails. *)
Theorem build_ppro_command_returns_iff base_path templates_path screens profs
    markers offsets output_name :
  (exists command,
      build_command base_path templates_path screens profs markers offsets
        output_name = Return command)
  <-> ADOBE_PPRO_PATH <> EmptyString
      /\ isfile (path_join templates_path PRPROJ_TEMPLATE) = true
      /\ isfile (path_join templates_path PRPROJ_PRESET) = true.
Proof.
  unfold build_ppro_command.
  destruct ADOBE_PPRO_PATH; simpl.
  - split; [intros [? ?]; discriminate | intros [H _]; now contradiction H].
  - destruct (isfile (path_join templates_path PRPROJ_TEMPLATE)); simpl.
    + destruct (isfile (path_join templates_path PRPROJ_PRESET)); simpl.
      * split; [intros _; repeat split; discriminate | eauto].
      * split; [intros [? ?]; discriminate | intros (_ & _ & ?); discriminate].
    + split; [intros [? ?]; discriminate | intros (_ & ? & _); discriminate].
Qed.

(** X17.  The command that [build_ppro_command] returns: the quoted path
    of Premiere Pro and its flags, then, between quotes, the opening of
    the template, the three string constants, the two arrays, the flag
    [needSync], the two dictionaries and, last, the inclusion of the
    assembly script. *)
Theorem build_ppro_command_text base_path templates_path screens profs
    markers offsets output_name :
  ADOBE_PPRO_PATH <> EmptyString ->
  isfile (path_join templates_path PRPROJ_TEMPLATE) = true ->
  isfile (path_join templates_path PRPROJ_PRESET) = true ->
  build_command base_path templates_path screens profs markers offsets output_name
  = Return
      ((dquote +:+ ADOBE_PPRO_PATH +:+ dquote +:+ " " +:+ ADOBE_PPRO_CMD)
       +:+ " " +:+ dquote
       +:+ Builder.opening_document_text
             (escape_sep (path_join templates_path PRPROJ_TEMPLATE))
       +:+ Builder.string_const_text "outputName" output_name
       +:+ Builder.string_const_text "basePath" (escape_sep base_path)
       +:+ Builder.string_const_text "presetPath"
             (escape_sep (path_join templates_path PRPROJ_PRESET))
       +:+ Builder.const_array_text str_num "screenVideos" (map PyStr screens)
       +:+ Builder.const_array_text str_num "professorVideos" (map PyStr profs)
       +:+ Builder.bool_value_text "needSync" true
       +:+ Builder.dict_text str_num "markerTimes"
             (ListValued (map (fun kv => (fst kv, map PyNum (snd kv))) markers))
       +:+ Builder.dict_text str_num "syncOffsets"
             (ScalarValued (map (fun kv => (fst kv, PyNum (snd kv))) offsets))
       +:+ Builder.include_text
             (escape_sep (path_join (path_join module_dir "adobe_scripts")
                            PRPROJ_SCRIPT))
       +:+ dquote).
Proof.
  intros Hpath Htemplate Hpreset. unfold build_ppro_command.
  destruct ADOBE_PPRO_PATH as [|c path]; [now contradiction Hpath|].
  cbn [Builder.truthy negb]. rewrite Htemplate, Hpreset. cbn [negb].
  cbn [Builder.chain Builder.apply_call Builder.append_opening_document
       Builder.append_string_const Builder.append_const_array
       Builder.append_bool_value Builder.append_dict
       Builder.append_script_including Builder.init Builder.extend
       Builder.base_command Builder.script_to_include Builder.truthy
       Builder.build fst].
  rewrite BuilderFacts.truthy_include_text.
  cbn [Builder.extend Builder.base_command Builder.script_to_include].
  f_equal. now rewrite !append_assoc.
Qed.

(** X18.  Whatever its collaborators answer, the export returns a result
    (it raises nothing) and the status of the result is [SUCCESS] or
    [FATAL_ERROR]: a status of the execution that is neither becomes a
    fatal error. *)
Theorem export_result_two_valued (db_object : Obj) (t : list export_call) :
  exists result,
    Prog.returned (export db_object tt t) = Return result
    /\ (status result = SUCCESS \/ status result = FATAL_ERROR).
Proof.
  step_export.
  destruct (isfile required_file); simpl; [|eauto].
  destruct (process_with_name_exists PPRO_WIN_PROCESS_NAME); simpl; [eauto|].
  destruct (is_empty (screen_files (files_extractor db_object))
            || is_empty (prof_files (files_extractor db_object))); simpl; [eauto|].
  destruct (build_for db_object) as [command|e]; simpl; [|eauto].
  destruct (decide (status (execute_command_sync command 1) = SUCCESS)); simpl; eauto.
Qed.

Lemma is_empty_false {A} (l : list A) : is_empty l = false <-> l <> [].
Proof. destruct l; simpl; split; congruence. Qed.

(** X19.  The export returns a success exactly when the required file is
    in place, no Premiere Pro runs, the extractor gives files of both
    kinds, the command can be built, and its execution, with 1 as the
    allowed code, reports a success. *)
Theorem export_success_iff (db_object : Obj) (t : list export_call) :
  (exists result,
      Prog.returned (export db_object tt t) = Return result
      /\ status result = SUCCESS)
  <-> isfile required_file = true
      /\ process_with_name_exists PPRO_WIN_PROCESS_NAME = false
      /\ screen_files (files_extractor db_object) <> []
      /\ prof_files (files_extractor db_object) <> []
      /\ exists command,
           build_for db_object = Return command
           /\ status (execute_command_sync command 1) = SUCCESS.
Proof.
  rewrite <- !is_empty_false. step_export.
  destruct (isfile required_file); simpl;
    [|split; [intros (r & [= <-] & H) | intros (H & _)]; discriminate].
  destruct (process_with_name_exists PPRO_WIN_PROCESS_NAME); simpl;
    [split; [intros (r & [= <-] & H) | intros (_ & H & _)]; discriminate|].
  destruct (is_empty (screen_files (files_extractor db_object))); simpl;
    [split; [intros (r & [= <-] & H) | intros (_ & _ & H & _)]; discriminate|].
  destruct (is_empty (prof_files (files_extractor db_object))); simpl;
    [split; [intros (r & [= <-] & H) | intros (_ & _ & _ & H & _)]; discriminate|].
  destruct (build_for db_object) as [command|e]; simpl;
    [|split; [intros (r & [= <-] & H) | intros (_ & _ & _ & _ & c & H & _)];
      discriminate].
  destruct (decide (status (execute_command_sync command 1) = SUCCESS)) as [Hs|Hs];
    simpl.
  - split; [intros _; repeat split; eauto | eauto].
  - split; [intros (r & [= <-] & H); discriminate|].
    intros (_ & _ & _ & _ & c & [= <-] & H). contradiction.
Qed.

(** X20.  The export hands at most one command to the file system
    client: none, or the command that [build_ppro_command] returned, with
    1 as the allowed code. *)
Theorem export_executes_at_most_once (db_object : Obj) (t : list export_call) :
  exists new,
    Prog.calls (export db_object tt t) = t ++ new
    /\ (List.filter is_execution new = []
        \/ exists command,
             build_for db_object = Return command
             /\ List.filter is_execution new = [ExecuteCommandSync command 1]).
Proof.
  step_export.
  destruct (isfile required_file); simpl;
    [|exists []; rewrite app_nil_r; auto].
  destruct (process_with_name_exists PPRO_WIN_PROCESS_NAME); simpl;
    [eexists; split; [reflexivity | auto]|].
  destruct (is_empty (screen_files (files_extractor db_object))
            || is_empty (prof_files (files_extractor db_object))); simpl;
    [rewrite <- !app_assoc; eexists; split; [reflexivity | auto]|].
  destruct (build_for db_object) as [command|e]; simpl;
    [|rewrite <- !app_assoc; eexists; split; [reflexivity | auto]].
  destruct (decide (status (execute_command_sync command 1) = SUCCESS)); simpl;
    rewrite <- !app_assoc; eexists; (split; [reflexivity|]); right; eauto.
Qed.

(** Without the required file in the directory of Premiere Pro the
    export returns the fatal error that names the file and the directory,
    and calls none of its collaborators: it looks for no process and does
    not run the extractor. *)
Theorem export_without_required_file (db_object : Obj) (t : list export_call) :
  isfile required_file = false ->
  export db_object tt t
  = (Return (mkResult FATAL_ERROR
               (Text (required_file_missing (dirname ADOBE_PPRO_PATH)))), tt, t).
Proof. intros H. step_export. now rewrite H. Qed.

(** X21.  When the execution of the built command does not report a
    success, the export logs an error with the message of the execution
    and the command, and returns the fatal error about the configuration
    of Premiere Pro. *)
Theorem export_execution_failure (db_object : Obj) (t : list export_call)
    (command : string) :
  isfile required_file = true ->
  process_with_name_exists PPRO_WIN_PROCESS_NAME = false ->
  screen_files (files_extractor db_object) <> [] ->
  prof_files (files_extractor db_object) <> [] ->
  build_for db_object = Return command ->
  status (execute_command_sync command 1) <> SUCCESS ->
  Prog.returned (export db_object tt t)
  = Return (mkResult FATAL_ERROR
              (Text "Cannot execute PPro command. Check PPro configuration."))
  /\ Prog.calls (export db_object tt t)
     = t ++ [ProcessWithNameExists PPRO_WIN_PROCESS_NAME; FilesExtractor;
             BuildPPROCommand; ExecuteCommandSync command 1;
             ExportLog ERROR
               ("Cannot execute PPro command: %s " +:+ newline
                +:+ " PPro command: %s")
               [ArgMsg (message (execute_command_sync command 1));
                ArgStr command]].
Proof.
  intros Hreq Hrun Hs Hp Hbuild Hexec. apply is_empty_false in Hs, Hp.
  step_export. rewrite Hreq, Hrun. simpl. rewrite Hs, Hp. simpl.
  rewrite Hbuild. simpl.
  destruct (decide (status (execute_command_sync command 1) = SUCCESS));
    [contradiction|].
  simpl. split; [reflexivity|]. now rewrite <- !app_assoc.
Qed.
End ExportLaws.
End ExportLaws.

(** ** The camera recorder, on all its paths *)

Module RecorderLaws.
Import CameraRecorder Derived.
Section RecorderLaws.
Variable FFMPEGcommand : string.
Variable path_join : string -> string -> string.
Variable poll : Popen -> option Z.
Variable execute_command : string -> InternalOperationResult * option Popen.
Variable send_quit_signal : option Popen -> InternalOperationResult.

Abbreviation active := (is_active poll).
Abbreviation start := (start_recording FFMPEGcommand path_join poll execute_command).
Abbreviation stop := (stop_recording poll send_quit_signal).

Ltac step_recorder :=
  unfold start_recording, stop_recording, process_pid, Prog.bind, Prog.get,
    Prog.put, Prog.call, Prog.ret, Prog.throw, Prog.returned, Prog.final,
    Prog.calls; simpl.

(** X22.  A start on a recorder that is not active, whose launch reports
    a success and gives a handle: the recorder keeps the handle, the path
    and the file name, the result of the launch is returned, and the one
    command launched is the capture command followed by the joined path
    and file name. *)
Theorem start_success self path filename (t : list recorder_call) result p :
  active self = false ->
  execute_command (FFMPEGcommand +:+ path_join path filename) = (result, Some p) ->
  status result = SUCCESS ->
  start path filename self t
  = (Return result,
     {| __process := Some p;
        last_processed_path := Some path;
        last_processed_file := Some filename |},
     t ++ [ExecuteCommand (FFMPEGcommand +:+ path_join path filename);
           RecorderLog INFO
             "Successfully start camera recording (FFMPEG PID: %s; FFMPEG command: %s)"
             [ArgPid (Some (pid p));
              ArgStr (FFMPEGcommand +:+ path_join path filename)]]).
Proof.
  intros Ha Hexec Hs. step_recorder. rewrite Ha, Hexec. simpl.
  destruct (decide (status result = SUCCESS)); [|contradiction].
  simpl. now rewrite <- !app_assoc.
Qed.

(** X23.  A second start right after a start that succeeded, while the
    launched process runs, is refused: it returns the fatal error, the
    recorder stays as the first start left it, with the first path and
    file name, and only the first command was launched. *)
Theorem start_twice_refused self path filename path' filename' result p :
  active self = false ->
  execute_command (FFMPEGcommand +:+ path_join path filename) = (result, Some p) ->
  status result = SUCCESS ->
  poll p = None ->
  (run start path filename; start path' filename') self []
  = (Return (mkResult FATAL_ERROR (Text "Camera is actually recording")),
     {| __process := Some p;
        last_processed_path := Some path;
        last_processed_file := Some filename |},
     [ExecuteCommand (FFMPEGcommand +:+ path_join path filename);
      RecorderLog INFO
        "Successfully start camera recording (FFMPEG PID: %s; FFMPEG command: %s)"
        [ArgPid (Some (pid p));
         ArgStr (FFMPEGcommand +:+ path_join path filename)];
      RecorderLog ERROR
        ("Can't start FFMPEG for file %s: camera is acctually recording "
         +:+ "(process with PID %s)")
        [ArgStr (path_join path' filename'); ArgPid (Some (pid p))]]).
Proof.
  intros Ha Hexec Hs Hpoll. step_recorder. rewrite Ha, Hexec. simpl.
  destruct (decide (status result = SUCCESS)); [|contradiction].
  simpl. unfold is_active. simpl. now rewrite Hpoll.
Qed.

(** X24.  A stop of an active recorder whose quit signal is sent with
    success: the handle is dropped, the last processed path and file name
    stay, the result of the sending is returned, and the calls are the
    signal, the scheduling of the kill, a log and the pipe applied to the
    last processed path and file name. *)
Theorem stop_success self (t : list recorder_call) p :
  __process self = Some p ->
  poll p = None ->
  status (send_quit_signal (Some p)) = SUCCESS ->
  stop self t
  = (Return (send_quit_signal (Some p)),
     {| __process := None;
        last_processed_path := last_processed_path self;
        last_processed_file := last_processed_file self |},
     t ++ [SendQuitSignal (Some p);
           RunWithDelay kill_process [pid p] KILL_DELAY;
           RecorderLog INFO "Successfully stop camera recording (FFMPEG PID: %s)"
             [ArgPid (Some (pid p))];
           ApplyPipe (last_processed_path self) (last_processed_file self)]).
Proof.
  intros Hp Hpoll Hs. step_recorder. unfold is_active. rewrite Hp, Hpoll. simpl.
  destruct (decide (status (send_quit_signal (Some p)) = SUCCESS)); [|contradiction].
  simpl. now rewrite <- !app_assoc.
Qed.

(** X25.  A stop of an active recorder whose quit signal is not sent with
    success: the recorder is left as it was, handle included, the result
    of the sending is returned, the kill is scheduled all the same, and
    the pipe is not applied. *)
Theorem stop_failure_keeps_handle self (t : list recorder_call) p :
  __process self = Some p ->
  poll p = None ->
  status (send_quit_signal (Some p)) <> SUCCESS ->
  stop self t
  = (Return (send_quit_signal (Some p)),
     self,
     t ++ [SendQuitSignal (Some p);
           RunWithDelay kill_process [pid p] KILL_DELAY;
           RecorderLog ERROR
             "Problems while stop camera recording (FFMPEG PID: %s) : %s"
             [ArgPid (Some (pid p));
              ArgMsg (message (send_quit_signal (Some p)))]]).
Proof.
  intros Hp Hpoll Hs. step_recorder. unfold is_active. rewrite Hp, Hpoll. simpl.
  destruct (decide (status (send_quit_signal (Some p)) = SUCCESS)); [contradiction|].
  simpl. now rewrite <- !app_assoc.
Qed.

(** X26.  A second stop right after a stop that succeeded does nothing
    but log: it returns a success, and over the two stops one quit signal
    was sent, one kill scheduled and the pipe applied once. *)
Theorem stop_twice_is_noop self p :
  __process self = Some p ->
  poll p = None ->
  status (send_quit_signal (Some p)) = SUCCESS ->
  Prog.returned ((run stop; stop) self [])
  = Return (mkResult SUCCESS
              (Text "Camera isn't active: can't stop non existing FFMPEG process"))
  /\ __process (Prog.final ((run stop; stop) self [])) = None
  /\ List.filter is_effect (Prog.calls ((run stop; stop) self []))
     = [SendQuitSignal (Some p);
        RunWithDelay kill_process [pid p] KILL_DELAY;
        ApplyPipe (last_processed_path self) (last_processed_file self)].
Proof.
  intros Hp Hpoll Hs. step_recorder. unfold is_active. rewrite Hp, Hpoll. simpl.
  destruct (decide (status (send_quit_signal (Some p)) = SUCCESS)); [|contradiction].
  simpl. repeat split.
Qed.

(** X27.  A stop of a recorder whose process has ended by itself (the
    poll gives its exit code) drops the stale handle, logs its identifier
    and returns a success; no signal is sent to the ended process and no
    kill of its identifier is scheduled. *)
Theorem stop_drops_stale_handle self (t : list recorder_call) p code :
  __process self = Some p ->
  poll p = Some code ->
  stop self t
  = (Return (mkResult SUCCESS
               (Text "Camera isn't active: can't stop non existing FFMPEG process")),
     {| __process := None;
        last_processed_path := last_processed_path self;
        last_processed_file := last_processed_file self |},
     t ++ [RecorderLog WARNING
             ("Camera isn't active: can't stop non existing FFMPEG process "
              +:+ "(try to stop process with PID %s)")
             [ArgPid (Some (pid p))]]).
Proof.
  intros Hp Hpoll. step_recorder. unfold is_active. rewrite Hp, Hpoll. simpl.
  reflexivity.
Qed.

(** X28.  Whatever the recorder and the answers of the outside world,
    [stop_recording] returns a result (it raises nothing), leaves the last
    processed path and file name as they were, and launches no command. *)
Theorem stop_frame self (t : list recorder_call) :
  (exists result, Prog.returned (stop self t) = Return result)
  /\ last_processed_path (Prog.final (stop self t)) = last_processed_path self
  /\ last_processed_file (Prog.final (stop self t)) = last_processed_file self
  /\ exists new,
       Prog.calls (stop self t) = t ++ new
       /\ List.filter is_launch new = [].
Proof.
  step_recorder. unfold is_active.
  destruct (__process self) as [p|] eqn:Hp; simpl.
  - destruct (poll p); simpl.
    + repeat split; eauto.
    + destruct (decide (status (send_quit_signal (Some p)) = SUCCESS)); simpl;
        rewrite <- !app_assoc; repeat split; eauto.
  - repeat split; eauto.
Qed.

(** X29.  Whatever the recorder and the answers of the outside world,
    [start_recording] sends no quit signal, schedules no task and does not
    apply the pipe; it launches one command at most. *)
Theorem start_frame self path filename (t : list recorder_call) :
  exists new,
    Prog.calls (start path filename self t) = t ++ new
    /\ List.filter is_quit_signal new = []
    /\ List.filter is_scheduling new = []
    /\ List.filter is_apply_pipe new = []
    /\ (length (List.filter is_launch new) <= 1)%nat.
Proof.
  step_recorder. unfold is_active.
  destruct (__process self) as [p|] eqn:Hp; simpl.
  - destruct (poll p); simpl.
    + destruct (execute_command (FFMPEGcommand +:+ path_join path filename))
        as [result [q|]]; simpl;
        destruct (decide (status result = SUCCESS)); simpl;
        rewrite <- ?app_assoc; eexists; (split; [reflexivity|]); simpl; auto.
    + eexists; (split; [reflexivity|]); simpl; auto.
  - destruct (execute_command (FFMPEGcommand +:+ path_join path filename))
      as [result [q|]]; simpl;
      destruct (decide (status result = SUCCESS)); simpl;
      rewrite <- ?app_assoc; eexists; (split; [reflexivity|]); simpl; auto.
Qed.

(** X30.  [stop_recording] applies the post-processing pipe exactly when
    the recorder is active and the quit signal is sent with success. *)
Theorem stop_applies_pipe_iff self :
  List.filter is_apply_pipe (Prog.calls (stop self [])) <> []
  <-> active self = true
      /\ status (send_quit_signal (__process self)) = SUCCESS.
Proof.
  step_recorder. unfold is_active.
  destruct (__process self) as [p|] eqn:Hp; simpl.
  - destruct (poll p); simpl.
    + split; [intros H; now contradiction H | intros [? _]; discriminate].
    + destruct (decide (status (send_quit_signal (Some p)) = SUCCESS)); simpl.
      * split; [auto | discriminate].
      * split; [intros H; now contradiction H | intros [_ ?]; contradiction].
  - split; [intros H; now contradiction H | intros [? _]; discriminate].
Qed.
End RecorderLaws.
End RecorderLaws.

(** ** The further properties at the sample course *)

Module LawWitnesses.
Import Sample Scenario.

Lemma chain_append_only_witness :
  let calls := [Builder.StringConst "outputName" "step";
                Builder.ScriptIncluding "assemble.jsx"] in
  let b' := {| Builder.base_command :=
                 ("ppro" +:+ " " +:+ dquote)
                 +:+ Builder.string_const_text "outputName" "step";
               Builder.script_to_include := Builder.include_text "assemble.jsx" |} in
  Builder.chain str_num calls (Builder.init "ppro") = Return b'
  /\ Builder.base_command b'
     = Builder.base_command (Builder.init "ppro")
       +:+ Builder.appended_texts str_num calls.
Proof.
  intros calls b'. split; [reflexivity|].
  apply (BuilderLaws.chain_append_only str_num calls (Builder.init "ppro") b').
  reflexivity.
Defined.

Lemma build_again_repeats_directive_witness :
  let calls := [Builder.BoolValue (num:=Z) "needSync" true] in
  Builder.truthy (Builder.script_to_include including) = true
  /\ Builder.plain calls
  /\ Derived.build_chain_build str_num calls including
     = Return (Builder.base_command including
               +:+ Builder.script_to_include including
               +:+ Builder.appended_texts str_num calls
               +:+ Builder.script_to_include including +:+ dquote).
Proof.
  intros calls. split; [reflexivity|]. split; [repeat constructor|].
  apply (BuilderLaws.build_again_repeats_directive str_num calls including);
    [reflexivity | repeat constructor].
Defined.

Lemma step_offsets_keys_witness :
  List.NoDup
    (map (Exporting.offset_key get_sync_offset)
       (List.filter (Exporting.substep_ready isfile) (substeps_of_step (id step))))
  /\ PyDict.keys (sync_offsets step_files)
     = map (Exporting.offset_key get_sync_offset)
         (List.filter (Exporting.substep_ready isfile) (substeps_of_step (id step))).
Proof.
  assert (Hnd : List.NoDup
            (map (Exporting.offset_key get_sync_offset)
               (List.filter (Exporting.substep_ready isfile)
                  (substeps_of_step (id step))))).
  { simpl. repeat constructor; simpl; intuition discriminate. }
  split; [exact Hnd|].
  exact (ExportingFacts.step_offsets_keys isfile get_sync_offset get_diff_times
           substeps_of_step step Hnd).
Defined.

Lemma step_offset_keys_are_files_witness :
  In "profB" (PyDict.keys (sync_offsets step_files))
  /\ (In "profB" (screen_files step_files) \/ In "profB" (prof_files step_files)).
Proof.
  split; [vm_compute; right; left; reflexivity|].
  apply (WalkLaws.step_offset_keys_are_files isfile get_sync_offset get_diff_times
           substeps_of_step step "profB").
  vm_compute. right. left. reflexivity.
Defined.

Lemma lesson_lists_concat_witness :
  let lesson_files :=
    Exporting.get_target_lesson_files isfile isdir get_sync_offset get_diff_times
      substeps_of_step steps_of_lesson lesson in
  let files_of step_obj :=
    Exporting.get_target_step_files isfile get_sync_offset get_diff_times
      substeps_of_step step_obj in
  isdir (row_os_path lesson) = true
  /\ screen_files lesson_files
     = concat (map (fun step_obj => screen_files (files_of step_obj))
                 (steps_of_lesson (id lesson)))
  /\ prof_files lesson_files
     = concat (map (fun step_obj => prof_files (files_of step_obj))
                 (steps_of_lesson (id lesson))).
Proof.
  intros lesson_files files_of. split; [reflexivity|].
  apply WalkLaws.lesson_lists_concat.
  reflexivity.
Defined.

Lemma course_of_absent_lessons_witness :
  Forall (fun l => isdir (row_os_path l) = false)
    (lessons_of_course (id hollow_course))
  /\ Exporting.get_target_course_files isfile isdir get_sync_offset get_diff_times
       substeps_of_step steps_of_lesson lessons_of_course hollow_course
     = Exporting.no_files.
Proof.
  split; [repeat constructor|].
  apply WalkLaws.course_of_absent_lessons.
  repeat constructor.
Defined.

Lemma build_ppro_command_text_witness :
  let templates := ExportObj.PRPROJ_TEMPLATES_PATH module_dir path_join in
  ADOBE_PPRO_PATH <> EmptyString
  /\ ppro_ready (path_join templates PRPROJ_TEMPLATE) = true
  /\ ppro_ready (path_join templates PRPROJ_PRESET) = true
  /\ ExportObj.build_ppro_command ADOBE_PPRO_PATH ADOBE_PPRO_CMD module_dir
       path_join ppro_ready escape_sep str_num (row_os_path step) templates
       ["screenA"] ["profA"] [("screenA", [3; 14])] [("screenA", 120)] "step"
     = Return
         ((dquote +:+ ADOBE_PPRO_PATH +:+ dquote +:+ " " +:+ ADOBE_PPRO_CMD)
          +:+ " " +:+ dquote
          +:+ Builder.opening_document_text
                (escape_sep (path_join templates PRPROJ_TEMPLATE))
          +:+ Builder.string_const_text "outputName" "step"
          +:+ Builder.string_const_text "basePath" (escape_sep (row_os_path step))
          +:+ Builder.string_const_text "presetPath"
                (escape_sep (path_join templates PRPROJ_PRESET))
          +:+ Builder.const_array_text str_num "screenVideos" (map PyStr ["screenA"])
          +:+ Builder.const_array_text str_num "professorVideos" (map PyStr ["profA"])
          +:+ Builder.bool_value_text "needSync" true
          +:+ Builder.dict_text str_num "markerTimes"
                (ListValued (map (fun kv => (fst kv, map PyNum (snd kv)))
                               [("screenA", [3; 14])]))
          +:+ Builder.dict_text str_num "syncOffsets"
                (ScalarValued (map (fun kv => (fst kv, PyNum (snd kv)))
                                 [("screenA", 120)]))
          +:+ Builder.include_text
                (escape_sep (path_join (path_join module_dir "adobe_scripts")
                               PRPROJ_SCRIPT))
          +:+ dquote).
Proof.
  intros templates.
  assert (Hpath : ADOBE_PPRO_PATH <> EmptyString) by discriminate.
  split; [exact Hpath|]. split; [reflexivity|]. split; [reflexivity|].
  apply (ExportLaws.build_ppro_command_text ADOBE_PPRO_PATH ADOBE_PPRO_CMD
           module_dir path_join ppro_ready escape_sep str_num);
    [exact Hpath | reflexivity | reflexivity].
Defined.

Lemma export_without_required_file_witness :
  nothing_on_disk (path_join (dirname ADOBE_PPRO_PATH) PRPROJ_REQUIRED_FILE) = false
  /\ export nothing_on_disk ppro_not_running extractor_of_step step tt []
     = (Return (mkResult FATAL_ERROR
                  (Text (ExportObj.required_file_missing (dirname ADOBE_PPRO_PATH)))),
        tt, []).
Proof.
  split; [reflexivity|].
  apply (ExportLaws.export_without_required_file ADOBE_PPRO_PATH ADOBE_PPRO_CMD
           module_dir dirname path_join nothing_on_disk escape_sep str_num
           translate_non_alphanumerics ppro_not_running execute_command_sync
           row_os_path (fun _ => "step") extractor_of_step step []).
  reflexivity.
Defined.

Lemma export_execution_failure_witness :
  ppro_ready (path_join (dirname ADOBE_PPRO_PATH) PRPROJ_REQUIRED_FILE) = true
  /\ ppro_not_running PPRO_WIN_PROCESS_NAME = false
  /\ Prog.returned (export_failing step tt [])
     = Return (mkResult FATAL_ERROR
                 (Text "Cannot execute PPro command. Check PPro configuration."))
  /\ Prog.calls (export_failing step tt [])
     = [] ++ [ProcessWithNameExists PPRO_WIN_PROCESS_NAME; FilesExtractor;
              BuildPPROCommand; ExecuteCommandSync sample_command 1;
              ExportLog ERROR
                ("Cannot execute PPro command: %s " +:+ newline
                 +:+ " PPro command: %s")
                [ArgMsg (message (failing_execution sample_command 1));
                 ArgStr sample_command]].
Proof.
  split; [reflexivity|]. split; [reflexivity|].
  apply (ExportLaws.export_execution_failure ADOBE_PPRO_PATH ADOBE_PPRO_CMD
           module_dir dirname path_join ppro_ready escape_sep str_num
           translate_non_alphanumerics ppro_not_running failing_execution
           row_os_path (fun _ => "step") extractor_of_step step [] sample_command);
    [reflexivity | reflexivity | discriminate | discriminate
    | vm_compute; reflexivity | discriminate].
Defined.

Lemma start_success_witness :
  CameraRecorder.is_active poll idle = false
  /\ launch (FFMPEGcommand +:+ path_join "/course/lesson/step" "profB")
     = (mkResult SUCCESS NoMessage, Some capture)
  /\ status (mkResult SUCCESS NoMessage) = SUCCESS
  /\ CameraRecorder.start_recording FFMPEGcommand path_join poll launch
       "/course/lesson/step" "profB" idle []
     = (Return (mkResult SUCCESS NoMessage),
        {| __process := Some capture;
           last_processed_path := Some "/course/lesson/step";
           last_processed_file := Some "profB" |},
        [] ++ [ExecuteCommand (FFMPEGcommand +:+ path_join "/course/lesson/step" "profB");
               RecorderLog INFO
                 "Successfully start camera recording (FFMPEG PID: %s; FFMPEG command: %s)"
                 [ArgPid (Some (pid capture));
                  ArgStr (FFMPEGcommand +:+ path_join "/course/lesson/step" "profB")]]).
Proof.
  split; [reflexivity|]. split; [reflexivity|]. split; [reflexivity|].
  apply (RecorderLaws.start_success FFMPEGcommand path_join poll launch idle
           "/course/lesson/step" "profB" [] (mkResult SUCCESS NoMessage) capture);
    reflexivity.
Defined.

Lemma start_twice_refused_witness :
  CameraRecorder.is_active poll idle = false
  /\ poll capture = None
  /\ Prog.returned
       ((run CameraRecorder.start_recording FFMPEGcommand path_join poll launch
               "/course/lesson/step" "profB";
         CameraRecorder.start_recording FFMPEGcommand path_join poll launch
           "/course/lesson/step" "profC") idle [])
     = Return (mkResult FATAL_ERROR (Text "Camera is actually recording")).
Proof.
  split; [reflexivity|]. split; [reflexivity|].
  exact (f_equal Prog.returned
           (RecorderLaws.start_twice_refused FFMPEGcommand path_join poll launch
              idle "/course/lesson/step" "profB" "/course/lesson/step" "profC"
              (mkResult SUCCESS NoMessage) capture
              eq_refl eq_refl eq_refl eq_refl)).
Defined.

Lemma stop_success_witness :
  __process recording = Some capture
  /\ poll capture = None
  /\ status (quit (Some capture)) = SUCCESS
  /\ CameraRecorder.stop_recording poll quit recording []
     = (Return (quit (Some capture)),
        {| __process := None;
           last_processed_path := last_processed_path recording;
           last_processed_file := last_processed_file recording |},
        [] ++ [SendQuitSignal (Some capture);
               RunWithDelay kill_process [pid capture] KILL_DELAY;
               RecorderLog INFO "Successfully stop camera recording (FFMPEG PID: %s)"
                 [ArgPid (Some (pid capture))];
               ApplyPipe (last_processed_path recording)
                 (last_processed_file recording)]).
Proof.
  split; [reflexivity|]. split; [reflexivity|]. split; [reflexivity|].
  apply (RecorderLaws.stop_success poll quit recording [] capture); reflexivity.
Defined.

Lemma stop_failure_keeps_handle_witness :
  __process recording = Some capture
  /\ poll capture = None
  /\ CameraRecorder.stop_recording poll failing_quit recording []
     = (Return (failing_quit (Some capture)),
        recording,
        [] ++ [SendQuitSignal (Some capture);
               RunWithDelay kill_process [pid capture] KILL_DELAY;
               RecorderLog ERROR
                 "Problems while stop camera recording (FFMPEG PID: %s) : %s"
                 [ArgPid (Some (pid capture));
                  ArgMsg (message (failing_quit (Some capture)))]]).
Proof.
  split; [reflexivity|]. split; [reflexivity|].
  apply (RecorderLaws.stop_failure_keeps_handle poll failing_quit recording []
           capture); [reflexivity | reflexivity | discriminate].
Defined.

Lemma stop_twice_is_noop_witness :
  let twice :=
    (run CameraRecorder.stop_recording poll quit;
     CameraRecorder.stop_recording poll quit) recording [] in
  __process recording = Some capture
  /\ poll capture = None
  /\ status (quit (Some capture)) = SUCCESS
  /\ Prog.returned twice
     = Return (mkResult SUCCESS
                 (Text "Camera isn't active: can't stop non existing FFMPEG process"))
  /\ __process (Prog.final twice) = None
  /\ List.filter Derived.is_effect (Prog.calls twice)
     = [SendQuitSignal (Some capture);
        RunWithDelay kill_process [pid capture] KILL_DELAY;
        ApplyPipe (last_processed_path recording) (last_processed_file recording)].
Proof.
  intros twice.
  split; [reflexivity|]. split; [reflexivity|]. split; [reflexivity|].
  apply (RecorderLaws.stop_twice_is_noop poll quit recording capture); reflexivity.
Defined.

Lemma stop_drops_stale_handle_witness :
  __process stale = Some ended
  /\ poll ended = Some 0
  /\ CameraRecorder.stop_recording poll quit stale []
     = (Return (mkResult SUCCESS
                  (Text "Camera isn't active: can't stop non existing FFMPEG process")),
        {| __process := None;
           last_processed_path := last_processed_path stale;
           last_processed_file := last_processed_file stale |},
        [] ++ [RecorderLog WARNING
                 ("Camera isn't active: can't stop non existing FFMPEG process "
                  +:+ "(try to stop process with PID %s)")
                 [ArgPid (Some (pid ended))]]).
Proof.
  split; [reflexivity|]. split; [reflexivity|].
  apply (RecorderLaws.stop_drops_stale_handle poll quit stale [] ended 0);
    reflexivity.
Defined.

Lemma step_marker_times_values_witness :
  List.NoDup (map screencast_name (Derived.kept isfile substeps_of_step step))
  /\ In substepA (Derived.kept isfile substeps_of_step step)
  /\ PyDict.get (screencast_name substepA) (marker_times step_files)
     = Some (get_diff_times (os_screencast_path substepA)).
Proof.
  assert (Hnd : List.NoDup
            (map screencast_name (Derived.kept isfile substeps_of_step step))).
  { cbv [Derived.kept]. simpl. repeat constructor; simpl; intuition discriminate. }
  assert (Hin : In substepA (Derived.kept isfile substeps_of_step step))
    by (left; reflexivity).
  split; [exact Hnd|]. split; [exact Hin|].
  exact (WalkLaws.step_marker_times_values isfile get_sync_offset get_diff_times
           substeps_of_step step substepA Hnd Hin).
Defined.

Lemma step_offsets_values_witness :
  List.NoDup (map (Exporting.offset_key get_sync_offset)
                (Derived.kept isfile substeps_of_step step))
  /\ In substepB (Derived.kept isfile substeps_of_step step)
  /\ PyDict.get (Exporting.offset_key get_sync_offset substepB)
       (sync_offsets step_files)
     = Some (Z.abs (get_sync_offset substepB)).
Proof.
  assert (Hnd : List.NoDup
            (map (Exporting.offset_key get_sync_offset)
               (Derived.kept isfile substeps_of_step step))).
  { cbv [Derived.kept]. simpl. repeat constructor; simpl; intuition discriminate. }
  assert (Hin : In substepB (Derived.kept isfile substeps_of_step step))
    by (right; left; reflexivity).
  split; [exact Hnd|]. split; [exact Hin|].
  exact (WalkLaws.step_offsets_values isfile get_sync_offset get_diff_times
           substeps_of_step step substepB Hnd Hin).
Defined.
End LawWitnesses.
